(** * Online sales dashboard: the data pipeline of [app.py] and [app_updated.py]

    Both scripts read a CSV of transactions into a pandas DataFrame, clean
    it ([load_data]), narrow it with the sidebar widgets ([filtered_data]),
    and feed the filtered frame to metrics, charts and a CSV download.

    The embedding keeps the scripts' shape: a DataFrame is a header plus
    rows, a row maps column names to cells, a missing value (NaN/NaT) is an
    absent key, boolean masks select rows, and Python exceptions are values
    of an error monad.  A number of a column is the rational it stands
    for, and products and sums are taken in the rationals: that is what
    pandas' int64 and float64 columns compute as long as every operand and
    every result is a whole number of magnitude at most 2^53
    ([exact_figures]); beyond that an int64 result wraps around and a
    float64 result is rounded ([sales_int64], [sales_float64]), and the
    statements about computed figures are made for the exact range only.
    Of the page only what is needed to tell what was shown is kept: emoji,
    colours and separators are left out, and so are the checks that
    Streamlit and plotly make on what they are asked to draw. *)

From stdpp Require Import gmap strings list sorting.
From Stdlib Require Import Ascii QArith Qcanon Floats.SpecFloat.

Local Open Scope string_scope.
Local Open Scope nat_scope.

(** ** Exceptions and the error monad *)

Inductive exn :=
  | FileNotFoundError
  | KeyError (key : string)
  | ValueError
  | TypeError
  | StopException.

Inductive result (A : Type) :=
  | Ok (a : A)
  | Raise (e : exn).
Arguments Ok {A} a.
Arguments Raise {A} e.

Global Instance result_ret : MRet result := λ A a, Ok a.
Global Instance result_bind : MBind result := λ A B f m,
  match m with Ok a => f a | Raise e => Raise e end.
Global Instance result_fmap : FMap result := λ A B f m,
  match m with Ok a => Ok (f a) | Raise e => Raise e end.

Global Instance exn_eq_dec : EqDecision exn.
Proof. solve_decision. Defined.

(** ** Timestamps

    Every timestamp of the scripts is a calendar day at midnight: the [Date]
    column comes from [pd.to_datetime(..., format='%m/%d/%Y')] and the
    bounds from [pd.Timestamp(date)].  Their order is the chronological
    one, which on days is the lexicographic order of (year, month, day). *)

Record Timestamp := mkTs { year : nat; month : nat; day : nat }.

Global Instance Timestamp_eq_dec : EqDecision Timestamp.
Proof. solve_decision. Defined.

Definition ts_leb (a b : Timestamp) : bool :=
  (year a <? year b) ||
  ((year a =? year b) &&
   ((month a <? month b) || ((month a =? month b) && (day a <=? day b)))).

(** ** Cells, rows, Series and DataFrames *)

Inductive cell :=
  | Num (x : Qc)
  | Str (s : string)
  | Ts (t : Timestamp).

Global Instance cell_eq_dec : EqDecision cell.
Proof. solve_decision. Defined.

(** A Series holds one optional cell per row; [None] is NaN (or NaT). *)
Abbreviation Series := (list (option cell)).
Abbreviation Row := (gmap string cell).

Record DataFrame := mkDF { columns : list string; rows : list Row }.

Global Instance DataFrame_eq_dec : EqDecision DataFrame.
Proof. solve_decision. Defined.
Global Instance result_eq_dec {A} `{EqDecision A} : EqDecision (result A).
Proof. solve_decision. Defined.

(** [len(df)] *)
Definition len (df : DataFrame) : nat := length (rows df).

(** [df[name]]: the column as a Series, [KeyError] when the header lacks it. *)
Definition getitem (df : DataFrame) (name : string) : result Series :=
  if decide (name ∈ columns df) then Ok ((λ r : Row, r !! name) <$> rows df)
  else Raise (KeyError name).

(** [df[name] = series]: overwrite the column in place, or append it. *)
Definition set_cell (name : string) (r : Row) (c : option cell) : Row :=
  match c with Some v => <[name := v]> r | None => delete name r end.

Definition setitem (df : DataFrame) (name : string) (s : Series) : DataFrame :=
  {| columns := if decide (name ∈ columns df) then columns df
                else (columns df ++ [name])%list;
     rows := zip_with (set_cell name) (rows df) s |}.

(** [df[mask]]: the rows whose mask entry is [True], in their order. *)
Fixpoint select {A} (l : list A) (mask : list bool) : list A :=
  match l, mask with
  | x :: l', b :: mask' => if b then x :: select l' mask' else select l' mask'
  | _, _ => []
  end.

Definition loc (df : DataFrame) (mask : list bool) : DataFrame :=
  {| columns := columns df; rows := select (rows df) mask |}.

(** [m1 & m2] on boolean Series. *)
Definition mask_and (m1 m2 : list bool) : list bool := zip_with andb m1 m2.

(** [df.dropna()]: drop every row with a missing value in any column. *)
Definition complete (cols : list string) (r : Row) : bool :=
  forallb (λ c, bool_decide (is_Some (r !! c))) cols.

Definition dropna (df : DataFrame) : DataFrame :=
  {| columns := columns df;
     rows := filter (λ r, complete (columns df) r) (rows df) |}.

(** Elementwise comparisons of a Series with a scalar.  A missing value
    compares [False], as NaN and NaT do. *)
Definition ge_ts_cell (t : Timestamp) (c : option cell) : bool :=
  match c with Some (Ts d) => ts_leb t d | _ => false end.
Definition le_ts_cell (t : Timestamp) (c : option cell) : bool :=
  match c with Some (Ts d) => ts_leb d t | _ => false end.
Definition ge_num_cell (x : Qc) (c : option cell) : bool :=
  match c with Some (Num y) => bool_decide (x ≤ y)%Qc | _ => false end.
Definition le_num_cell (x : Qc) (c : option cell) : bool :=
  match c with Some (Num y) => bool_decide (y ≤ x)%Qc | _ => false end.

Definition ge_ts (s : Series) (t : Timestamp) : list bool := ge_ts_cell t <$> s.
Definition le_ts (s : Series) (t : Timestamp) : list bool := le_ts_cell t <$> s.
Definition ge_num (s : Series) (x : Qc) : list bool := ge_num_cell x <$> s.
Definition le_num (s : Series) (x : Qc) : list bool := le_num_cell x <$> s.

(** [series == value] and [series.isin(values)]. *)
Definition eq_cell_at (v : cell) (c : option cell) : bool :=
  bool_decide (c = Some v).
Definition isin_cell (values : list cell) (c : option cell) : bool :=
  match c with Some v => bool_decide (v ∈ values) | None => false end.

Definition eq_cell (s : Series) (v : cell) : list bool := eq_cell_at v <$> s.
Definition isin (s : Series) (values : list cell) : list bool :=
  isin_cell values <$> s.

(** [series.unique()]: the distinct values in order of first appearance. *)
Fixpoint unique_acc {A} `{EqDecision A} (seen : list A) (l : list A) : list A :=
  match l with
  | [] => []
  | x :: l' => if decide (x ∈ seen) then unique_acc seen l'
               else x :: unique_acc (x :: seen) l'
  end.
Definition unique {A} `{EqDecision A} (l : list A) : list A := unique_acc [] l.

(** [series.nunique()]: how many distinct values, NaN aside. *)
Definition nunique (s : Series) : nat := length (unique (omap id s)).

(** The numeric entries of a Series; reductions skip missing values. *)
Definition nums (s : Series) : list Qc :=
  omap (λ c, match c with Some (Num x) => Some x | _ => None end) s.

(** [series.sum()] of a numeric Series: 0 when there is nothing to add.
    The sum is the exact one; the code's float64 sum is rounded (and its
    int64 sum wraps), so the two agree where no addition rounds or wraps
    ([whole_column]). *)
Definition series_sum (s : Series) : Qc := foldr Qcplus 0%Qc (nums s).

(** [series.min()] and [series.max()] of a numeric Series; [None] is the
    NaN that pandas returns on an empty Series. *)
Definition Qc_min (x y : Qc) : Qc := if bool_decide (x ≤ y)%Qc then x else y.
Definition Qc_max (x y : Qc) : Qc := if bool_decide (x ≤ y)%Qc then y else x.
Definition reduce {A} (f : A → A → A) (l : list A) : option A :=
  match l with [] => None | x :: l' => Some (foldl f x l') end.
Definition series_min (s : Series) : option Qc := reduce Qc_min (nums s).
Definition series_max (s : Series) : option Qc := reduce Qc_max (nums s).

(** [int(x)]: truncation towards zero; [int(nan)] raises [ValueError]. *)
Definition int (x : option Qc) : result Z :=
  match x with
  | Some q => Ok (Z.quot (Qnum q) (Zpos (Qden q)))
  | None => Raise ValueError
  end.

(** Elementwise product of two numeric Series, as [read_csv] gives them for
    Price and Quantity.  NaN propagates.  The product is the exact one: it
    is the code's where that neither rounds nor wraps ([exact_figures]).
    A text or timestamp operand is a [TypeError] here; Python's repetition
    of a text by an int (an object column times an int64 column) is left
    out, so statements about what [load_data] returns are made for files
    whose Price and Quantity are numbers ([numeric_file]). *)
Definition mul_cell (ab : option cell * option cell) : result (option cell) :=
  match ab with
  | (Some (Num x), Some (Num y)) => Ok (Some (Num (x * y)%Qc))
  | (None, None) | (None, Some (Num _)) | (Some (Num _), None) => Ok None
  | _ => Raise TypeError
  end.
Definition series_mul (a b : Series) : result Series := mapM mul_cell (zip a b).

(** *** The columns' own arithmetic

    What [data['Price'] * data['Quantity']] computes on one row.  Two
    int64 columns multiply in int64, which wraps around at 2^63.  A
    float64 Price times an int64 Quantity multiplies in float64 (binary64,
    round to nearest even), the quantity converted first.  [read_csv]
    reads a decimal such as 0.1 as the double nearest to it. *)
Definition int64 (z : Z) : Z := ((z + 2 ^ 63) mod 2 ^ 64 - 2 ^ 63)%Z.
Definition sales_int64 (price quantity : Z) : Z := int64 (price * quantity).

Definition float64_of_Z (z : Z) : spec_float := binary_normalize 53 1024 z 0 false.
Definition float64_of_decimal (digits : Z) (places : nat) : spec_float :=
  SFdiv 53 1024 (float64_of_Z digits) (float64_of_Z (10 ^ Z.of_nat places)).
Definition float64_mul (x y : spec_float) : spec_float := SFmul 53 1024 x y.
Definition float64_add (x y : spec_float) : spec_float := SFadd 53 1024 x y.
Definition sales_float64 (price : spec_float) (quantity : Z) : spec_float :=
  float64_mul price (float64_of_Z quantity).

(** [series.sum()] of a float64 Series of two entries: one addition, in
    whatever order the summation goes about longer Series. *)
Definition sum_float64_of_two (x y : spec_float) : spec_float := float64_add x y.

(** The rational that a finite double stands for. *)
Definition float64_value (x : spec_float) : option Qc :=
  match x with
  | S754_zero _ => Some 0%Qc
  | S754_finite s m e =>
      Some (Q2Qc (inject_Z (if s then Z.neg m else Z.pos m) * Qpower 2 e))
  | _ => None
  end.

(** *** Dates as text

    [strptime] follows the regular expression that '%m/%d/%Y' compiles to:
    a month [1[0-2]|0[1-9]|[1-9]], a slash, a day
    [3[01]|[12]\d|0[1-9]|[1-9]| [1-9]], a slash, a year of four digits and
    nothing after it; the triple must then be a day of the calendar. *)

Definition digit_of (a : Ascii.ascii) : option nat :=
  let n := Ascii.nat_of_ascii a in
  if (48 <=? n) && (n <=? 57) then Some (n - 48) else None.

Fixpoint number_acc (acc : nat) (s : string) : option nat :=
  match s with
  | EmptyString => Some acc
  | String a s' => d ← digit_of a; number_acc (10 * acc + d) s'
  end.
Definition number (s : string) : option nat := number_acc 0 s.

(** Cut a string at the first occurrence of a separator. *)
Fixpoint cut (sep : Ascii.ascii) (s : string) : option (string * string) :=
  match s with
  | EmptyString => None
  | String a s' =>
      if decide (a = sep) then Some (EmptyString, s')
      else '(l, r) ← cut sep s'; Some (String a l, r)
  end.

Definition month_field (s : string) : option nat :=
  n ← number s;
  if (1 <=? String.length s) && (String.length s <=? 2) && (1 <=? n) && (n <=? 12)
  then Some n else None.

Definition day_field (s : string) : option nat :=
  match s with
  | String " "%char s' =>
      n ← number s';
      if (String.length s' =? 1) && (1 <=? n) then Some n else None
  | _ =>
      n ← number s;
      if (1 <=? String.length s) && (String.length s <=? 2) && (1 <=? n) && (n <=? 31)
      then Some n else None
  end.

Definition year_field (s : string) : option nat :=
  n ← number s; if String.length s =? 4 then Some n else None.

Definition is_leap (y : nat) : bool :=
  ((y mod 4 =? 0) && negb (y mod 100 =? 0)) || (y mod 400 =? 0).

Definition days_in_month (y m : nat) : nat :=
  match m with
  | 2 => if is_leap y then 29 else 28
  | 4 | 6 | 9 | 11 => 30
  | _ => 31
  end.

Definition strptime (s : string) : option Timestamp :=
  '(ms, rest) ← cut "/"%char s;
  '(ds, ys) ← cut "/"%char rest;
  m ← month_field ms;
  d ← day_field ds;
  y ← year_field ys;
  if (1 <=? y) && (d <=? days_in_month y m) then Some (mkTs y m d) else None.

(** [pd.to_datetime(series, format='%m/%d/%Y')]: text that does not match
    the format raises [ValueError]; NaN becomes NaT. *)
Definition to_datetime_cell (c : option cell) : result (option cell) :=
  match c with
  | None => Ok None
  | Some (Str s) =>
      match strptime s with
      | Some t => Ok (Some (Ts t))
      | None => Raise ValueError
      end
  | Some (Ts t) => Ok (Some (Ts t))
  | Some (Num _) => Raise ValueError
  end.
Definition to_datetime (s : Series) : result Series := mapM to_datetime_cell s.

(** How [to_csv] writes a midnight timestamp: ISO year-month-day. *)
Definition digit_char (d : nat) : Ascii.ascii := Ascii.ascii_of_nat (48 + d mod 10).

Definition strftime (t : Timestamp) : string :=
  String (digit_char (year t / 1000)) (String (digit_char (year t / 100))
  (String (digit_char (year t / 10)) (String (digit_char (year t))
  (String "-"%char (String (digit_char (month t / 10)) (String (digit_char (month t))
  (String "-"%char (String (digit_char (day t / 10)) (String (digit_char (day t))
  EmptyString))))))))).

(** [df.to_csv(index=False)], seen as the table [pd.read_csv] reads back
    from the exported bytes: the same header, one line per row, timestamps
    written as ISO text.  Quoting, UTF-8 and the shortest-decimal rendering
    of numbers are pandas' own and lossless on numbers and text. *)
Definition to_csv_cell (c : cell) : cell :=
  match c with Ts t => Str (strftime t) | _ => c end.
Definition to_csv (df : DataFrame) : DataFrame :=
  {| columns := columns df; rows := (λ r : Row, to_csv_cell <$> r) <$> rows df |}.

(** *** Grouping and sorting *)

(** Insertion of an element before the first one it does not exceed, and
    the stable sort it gives. *)
Section insertion_sort.
Context {A : Type} (leb : A → A → bool).

Fixpoint insert_sorted (x : A) (l : list A) : list A :=
  match l with
  | [] => [x]
  | y :: l' => if leb x y then x :: y :: l' else y :: insert_sorted x l'
  end.

Definition insertion_sort (l : list A) : list A := foldr insert_sorted [] l.
End insertion_sort.

(** The order in which [groupby] (with its default [sort=True]) lists the
    group keys: ascending, text by code points.  A column read by
    [read_csv] holds keys of one kind; across kinds the order below is the
    model's choice. *)
Definition cell_leb (a b : cell) : bool :=
  match a, b with
  | Num x, Num y => bool_decide (x ≤ y)%Qc
  | Str s, Str t => String.leb s t
  | Ts s, Ts t => ts_leb s t
  | Num _, _ => true
  | Str _, Ts _ => true
  | _, _ => false
  end.

Definition pair_leb (a b : nat * nat) : bool :=
  (a.1 <? b.1) || ((a.1 =? b.1) && (a.2 <=? b.2)).

(** [df.groupby(by)[value].sum()] on the two columns: one entry per
    distinct key (rows with a missing key are left out), keys ascending,
    each with the sum of the values of its rows. *)
Definition groupby_sum {K} `{EqDecision K} (leb : K → K → bool)
    (by_ : list (option K)) (values : Series) : list (K * Qc) :=
  (λ k, (k, series_sum (select values ((λ c, bool_decide (c = Some k)) <$> by_))))
    <$> insertion_sort leb (unique (omap id by_)).

(** [series.sort_values(ascending=False)] with pandas' default
    [kind='quicksort'].  The result is a rearrangement of the entries with
    the values descending; where entries with equal values end up is left
    to the NumPy sort in use, so the scripts are read over any sort that
    meets this contract. *)
Definition desc (a b : cell * Qc) : Prop := (b.2 ≤ a.2)%Qc.

Class SortValues := {
  sort_values_desc : list (cell * Qc) → list (cell * Qc);
  sort_values_perm l : sort_values_desc l ≡ₚ l;
  sort_values_sorted l : Sorted desc (sort_values_desc l)
}.

(** One such sort, following pandas' [nargsort]: reverse, argsort
    ascending, reverse.  The argsort here is the insertion sort that
    NumPy's quicksort runs on short inputs, which keeps equal values in
    their order. *)
Definition value_leb (a b : cell * Qc) : bool := bool_decide (a.2 ≤ b.2)%Qc.
Definition nargsort_desc (l : list (cell * Qc)) : list (cell * Qc) :=
  reverse (insertion_sort value_leb (reverse l)).

(** [series.head(n)] *)
Definition head {A} (n : nat) (l : list A) : list A := take n l.

(** ** What a script shows, and scripts as computations

    A Streamlit script runs top to bottom; every [st.*] call adds an
    element to the page, and an uncaught exception (or [st.stop()], which
    raises) ends the run with the page as it then is. *)

Inductive element :=
  | st_error (msg : string)
  | st_markdown (body : string)
  | st_input (label : string)
  | st_metric (label : string) (value : Qc)
  | st_write (text : string) (value : Qc)
  | st_line_chart (data : list (option cell * option cell))
  | st_bar (title : string) (data : list (cell * Qc))
  | st_heatmap (data : list (nat * nat * Qc))
  | st_scatter (data : DataFrame)
  | st_download_button (file_name : string) (data : DataFrame)
  | st_dataframe (data : DataFrame).

Global Instance element_eq_dec : EqDecision element.
Proof. solve_decision. Defined.

Definition Script (A : Type) : Type := list element * result A.

Global Instance script_ret : MRet Script := λ A a, ([], Ok a).
Global Instance script_bind : MBind Script := λ A B f m,
  match m with
  | (page, Ok a) => let '(page', r) := f a in ((page ++ page')%list, r)
  | (page, Raise e) => (page, Raise e)
  end.

Definition show (e : element) : Script unit := ([e], Ok ()).
Definition run {A} (r : result A) : Script A := ([], r).
Definition st_stop {A} : Script A := ([], Raise StopException).

(** [try: ... except FileNotFoundError: ...] around a computation. *)
Definition except_FileNotFoundError {A} (body handler : Script A) : Script A :=
  match body with
  | (page, Raise FileNotFoundError) =>
      let '(page', r) := handler in ((page ++ page')%list, r)
  | _ => body
  end.

(** [pd.read_csv(file_path)]: the file is there with its table, or not. *)
Definition read_csv (file : option DataFrame) : result DataFrame :=
  match file with Some df => Ok df | None => Raise FileNotFoundError end.

(** Code that the two scripts share word for word. *)

(** [data[(data['Date'] >= pd.Timestamp(date_range[0])) &
          (data['Date'] <= pd.Timestamp(date_range[1]))]]
    under [if len(date_range) == 2], else [data]. *)
Definition date_filter (data : DataFrame) (date_range : list Timestamp)
    : result DataFrame :=
  match date_range with
  | [d0; d1] =>
      lo ← getitem data "Date";
      hi ← getitem data "Date";
      Ok (loc data (mask_and (ge_ts lo d0) (le_ts hi d1)))
  | _ => Ok data
  end.

(** [filtered_data['Sales'].sum()], [len(filtered_data)],
    [filtered_data['Quantity'].sum()] *)
Definition total_sales (fd : DataFrame) : result Qc :=
  series_sum <$> getitem fd "Sales".
Definition total_transactions (fd : DataFrame) : nat := len fd.
Definition total_quantity (fd : DataFrame) : result Qc :=
  series_sum <$> getitem fd "Quantity".

(** [filtered_data.set_index('Date')['Sales']] *)
Definition sales_over_time (fd : DataFrame)
    : result (list (option cell * option cell)) :=
  d ← getitem fd "Date"; s ← getitem fd "Sales"; Ok (zip d s).

(** [filtered_data.groupby(by)['Sales'].sum()] *)
Definition groupby_sales (fd : DataFrame) (by_ : string) : result (list (cell * Qc)) :=
  k ← getitem fd by_; v ← getitem fd "Sales"; Ok (groupby_sum cell_leb k v).

(** [filtered_data.groupby('ProductName')['Sales'].sum()
      .sort_values(ascending=False).head(10).reset_index()], with the 10
    as a parameter. *)
Definition top_products `{SortValues} (fd : DataFrame) (n : nat)
    : result (list (cell * Qc)) :=
  g ← groupby_sales fd "ProductName"; Ok (head n (sort_values_desc g)).

(** [filtered_data.groupby('Country')['Sales'].sum()
      .sort_values(ascending=False).reset_index()] *)
Definition sales_by_country `{SortValues} (fd : DataFrame)
    : result (list (cell * Qc)) :=
  g ← groupby_sales fd "Country"; Ok (sort_values_desc g).

(** [filtered_data.groupby([Date.dt.year, Date.dt.month])['Sales'].sum()
      .reset_index(name="Total Sales")] *)
Definition year_month (c : option cell) : option (nat * nat) :=
  match c with Some (Ts t) => Some (year t, month t) | _ => None end.
Definition heatmap_data (fd : DataFrame) : result (list (nat * nat * Qc)) :=
  d ← getitem fd "Date"; v ← getitem fd "Sales";
  Ok (groupby_sum pair_leb (year_month <$> d) v).

(** [price_input * quantity_input] *)
Definition predicted_sales (price_input : Qc) (quantity_input : Z) : Qc :=
  (price_input * Qc_of_Z quantity_input)%Qc.

(** [convert_to_csv(df)]: [df.to_csv(index=False).encode('utf-8')] *)
Definition convert_to_csv (df : DataFrame) : DataFrame := to_csv df.

(** ** app.py *)
Module App.

(** What the user has set in the sidebar. *)
Record Widgets := {
  date_range : list Timestamp;
  selected_country : list cell;
  selected_product : list cell;
  price_input : Qc;
  quantity_input : Z
}.

Definition load_data (file : option DataFrame) : result DataFrame :=
  data ← read_csv file;
  let data := dropna data in
  date ← getitem data "Date";
  date ← to_datetime date;
  let data := setitem data "Date" date in
  price ← getitem data "Price";
  quantity ← getitem data "Quantity";
  sales ← series_mul price quantity;
  Ok (setitem data "Sales" sales).

(** The multiselects start with every value of the column selected. *)
Definition options (data : DataFrame) (column : string) : result (list cell) :=
  s ← getitem data column; Ok (unique (omap id s)).

(** [filtered_data[(filtered_data['Country'].isin(selected_country)) &
      (filtered_data['ProductName'].isin(selected_product))]] *)
Definition category_filter (fd : DataFrame)
    (selected_country selected_product : list cell) : result DataFrame :=
  c ← getitem fd "Country";
  p ← getitem fd "ProductName";
  Ok (loc fd (mask_and (isin c selected_country) (isin p selected_product))).

(** Lines 30 to 38: from the loaded data to the filtered frame. *)
Definition filtered_data (data : DataFrame) (w : Widgets) : result DataFrame :=
  fd ← date_filter data (date_range w);
  category_filter fd (selected_country w) (selected_product w).

(** The whole script.  A widget or a chart is the element it adds to the
    page: that [st.date_input] needs dates to start from (data with a
    row) and that plotly refuses a negative marker size are checks of
    those libraries, not of the script, and are not modelled; statements
    about runs that reach them are made of the expressions the script
    evaluates, not of the page. *)
Definition main `{SortValues} (file : option DataFrame) (w : Widgets)
    : Script unit :=
  data ← except_FileNotFoundError (run (load_data file))
           (_ ← show (st_error "File not found: Sales Transaction v.4a.csv");
            st_stop);
  _ ← show (st_markdown "Sales Dashboard");
  _ ← show (st_markdown "Filters");
  _ ← run (getitem data "Date");
  _ ← show (st_input "Select Date Range");
  fd ← run (date_filter data (date_range w));
  _ ← run (options data "Country");
  _ ← show (st_input "Select Country");
  _ ← run (options data "ProductName");
  _ ← show (st_input "Select Product");
  fd ← run (category_filter fd (selected_country w) (selected_product w));
  sales ← run (total_sales fd);
  _ ← show (st_metric "Total Sales" sales);
  _ ← show (st_metric "Total Transactions" (Qc_of_Z (Z.of_nat (total_transactions fd))));
  quantity ← run (total_quantity fd);
  _ ← show (st_metric "Total Quantity Sold" quantity);
  _ ← show (st_markdown "Sales Over Time");
  line ← run (sales_over_time fd);
  _ ← show (st_line_chart line);
  _ ← show (st_markdown "Top 10 Products by Sales");
  top ← run (top_products fd 10);
  _ ← show (st_bar "Top 10 Products by Sales" top);
  _ ← show (st_markdown "Sales by Country");
  by_country ← run (sales_by_country fd);
  _ ← show (st_bar "Sales by Country" by_country);
  _ ← show (st_markdown "Seasonal Sales Heatmap");
  heat ← run (heatmap_data fd);
  _ ← show (st_heatmap heat);
  _ ← show (st_markdown "Quantity vs. Sales");
  _ ← show (st_scatter fd);
  _ ← show (st_markdown "Predictive Sales Calculator");
  _ ← show (st_input "Enter Product Price");
  _ ← show (st_input "Enter Quantity Sold");
  _ ← show (st_write "Predicted Sales" (predicted_sales (price_input w) (quantity_input w)));
  show (st_download_button "filtered_data.csv" (convert_to_csv fd)).

End App.

(** ** app_updated.py *)
Module AppUpdated.

Record Widgets := {
  date_range : list Timestamp;
  selected_country : cell;
  selected_product : cell;
  price_range : Qc * Qc;
  quantity_range : Z * Z;
  price_input : Qc;
  quantity_input : Z
}.

Definition required_columns : list string :=
  ["Date"; "Price"; "Quantity"; "Country"; "ProductName"].

Definition load_data (file : option DataFrame) : Script DataFrame :=
  data ← run (read_csv file);
  let data := dropna data in
  _ ← (if forallb (λ col, bool_decide (col ∈ columns data)) required_columns
       then mret ()
       else _ ← show (st_error "The dataset is missing required columns.");
            st_stop);
  date ← run (getitem data "Date");
  date ← run (to_datetime date);
  let data := setitem data "Date" date in
  price ← run (getitem data "Price");
  quantity ← run (getitem data "Quantity");
  sales ← run (series_mul price quantity);
  mret (setitem data "Sales" sales).

(** The select boxes offer ["All"] followed by the values of the column. *)
Definition options (data : DataFrame) (column : string) : result (list cell) :=
  s ← getitem data column; Ok (Str "All" :: unique (omap id s)).

(** [if selected != "All":
       filtered_data = filtered_data[filtered_data[column] == selected]] *)
Definition selectbox_filter (fd : DataFrame) (column : string) (selected : cell)
    : result DataFrame :=
  if decide (selected ≠ Str "All") then
    c ← getitem fd column; Ok (loc fd (eq_cell c selected))
  else Ok fd.

(** The sliders start at the extremes of the loaded data. *)
Definition default_price_range (data : DataFrame) : result (option (Qc * Qc)) :=
  p ← getitem data "Price";
  Ok (lo ← series_min p; hi ← series_max p; Some (lo, hi)).

Definition default_quantity_range (data : DataFrame) : result (Z * Z) :=
  q ← getitem data "Quantity";
  lo ← int (series_min q);
  hi ← int (series_max q);
  Ok (lo, hi).

Definition price_filter (fd : DataFrame) (price_range : Qc * Qc)
    : result DataFrame :=
  lo ← getitem fd "Price";
  hi ← getitem fd "Price";
  Ok (loc fd (mask_and (ge_num lo price_range.1) (le_num hi price_range.2))).

Definition quantity_filter (fd : DataFrame) (quantity_range : Z * Z)
    : result DataFrame :=
  lo ← getitem fd "Quantity";
  hi ← getitem fd "Quantity";
  Ok (loc fd (mask_and (ge_num lo (Qc_of_Z quantity_range.1))
                       (le_num hi (Qc_of_Z quantity_range.2)))).

(** Lines 45 to 65: the filters that [app.py] has a counterpart for. *)
Definition basic_filters (data : DataFrame) (w : Widgets) : result DataFrame :=
  fd ← date_filter data (date_range w);
  fd ← selectbox_filter fd "Country" (selected_country w);
  selectbox_filter fd "ProductName" (selected_product w).

(** Lines 45 to 85: from the loaded data to the filtered frame. *)
Definition filtered_data (data : DataFrame) (w : Widgets) : result DataFrame :=
  fd ← basic_filters data w;
  fd ← price_filter fd (price_range w);
  quantity_filter fd (quantity_range w).

(** The whole script.  As in [app.py], the checks that Streamlit and
    plotly make on what they are given ([st.date_input] needs dates,
    [st.slider] needs its minimum below its maximum, a marker size must
    not be negative) are not modelled. *)
Definition main `{SortValues} (file : option DataFrame) (w : Widgets)
    : Script unit :=
  data ← except_FileNotFoundError (load_data file)
           (_ ← show (st_error "File not found: Sales Transaction v.4a.csv");
            st_stop);
  _ ← show (st_markdown "Sales Dashboard");
  _ ← show (st_markdown "Filters");
  _ ← run (getitem data "Date");
  _ ← show (st_input "Select Date Range");
  fd ← run (date_filter data (date_range w));
  _ ← run (options data "Country");
  _ ← show (st_input "Select Country");
  fd ← run (selectbox_filter fd "Country" (selected_country w));
  _ ← run (options data "ProductName");
  _ ← show (st_input "Select Product");
  fd ← run (selectbox_filter fd "ProductName" (selected_product w));
  _ ← run (default_price_range data);
  _ ← show (st_input "Price Range");
  fd ← run (price_filter fd (price_range w));
  _ ← run (default_quantity_range data);
  _ ← show (st_input "Quantity Range");
  fd ← run (quantity_filter fd (quantity_range w));
  _ ← show (st_markdown "Key Metrics");
  sales ← run (total_sales fd);
  _ ← show (st_metric "Total Sales" sales);
  _ ← show (st_metric "Total Transactions" (Qc_of_Z (Z.of_nat (total_transactions fd))));
  quantity ← run (total_quantity fd);
  _ ← show (st_metric "Total Quantity Sold" quantity);
  _ ← show (st_markdown "Sales Over Time");
  line ← run (sales_over_time fd);
  _ ← show (st_line_chart line);
  _ ← show (st_markdown "Visualizations");
  _ ← show (st_markdown "Top 10 Products by Sales");
  top ← run (top_products fd 10);
  _ ← show (st_bar "Top 10 Products by Sales" top);
  _ ← show (st_markdown "Sales by Country");
  by_country ← run (sales_by_country fd);
  _ ← show (st_bar "Sales by Country" by_country);
  _ ← show (st_markdown "Seasonal Trends Heatmap");
  heat ← run (heatmap_data fd);
  _ ← show (st_heatmap heat);
  _ ← show (st_markdown "Quantity vs Sales");
  _ ← show (st_scatter fd);
  _ ← show (st_markdown "Download Filtered Data");
  _ ← show (st_download_button "filtered_data.csv" (convert_to_csv fd));
  _ ← show (st_dataframe fd);
  _ ← show (st_markdown "Predictive Sales Calculator");
  _ ← show (st_input "Enter Product Price");
  _ ← show (st_input "Enter Quantity Sold");
  show (st_write "Predicted Sales" (predicted_sales (price_input w) (quantity_input w))).

End AppUpdated.

(** * Vocabulary of the properties *)

(** A row as [load_data] leaves it: a timestamp, two numbers and their
    product under [Sales]. *)
Definition typed_row (r : Row) : Prop :=
  ∃ t p q, r !! "Date" = Some (Ts t) ∧ r !! "Price" = Some (Num p) ∧
           r !! "Quantity" = Some (Num q) ∧ r !! "Sales" = Some (Num (p * q)%Qc).

Record loaded (data : DataFrame) : Prop := {
  loaded_columns :
    Forall (λ c, c ∈ columns data) ["Date"; "Price"; "Quantity"; "Sales"];
  loaded_complete : Forall (λ r, complete (columns data) r) (rows data);
  loaded_typed : Forall typed_row (rows data)
}.

(** A frame with the header of another and some of its rows, in order. *)
Definition view_of (data fd : DataFrame) : Prop :=
  columns fd = columns data ∧ rows fd `sublist_of` rows data.

(** The rows of a frame that satisfy a test, under the same header. *)
Definition where_ (df : DataFrame) (p : Row → bool) : DataFrame :=
  {| columns := columns df; rows := filter (λ r, p r) (rows df) |}.

Definition in_dates (d0 d1 : Timestamp) (r : Row) : bool :=
  ge_ts_cell d0 (r !! "Date") && le_ts_cell d1 (r !! "Date").
Definition in_selection (sc sp : list cell) (r : Row) : bool :=
  isin_cell sc (r !! "Country") && isin_cell sp (r !! "ProductName").
Definition in_prices (pr : Qc * Qc) (r : Row) : bool :=
  ge_num_cell pr.1 (r !! "Price") && le_num_cell pr.2 (r !! "Price").
Definition in_quantities (qr : Z * Z) (r : Row) : bool :=
  ge_num_cell (Qc_of_Z qr.1) (r !! "Quantity") &&
  le_num_cell (Qc_of_Z qr.2) (r !! "Quantity").

(** Every filter of the two scripts has one shape: the header decides
    whether it raises, and otherwise it keeps the rows that pass a test. *)
Definition row_filter (f : DataFrame → result DataFrame) : Prop :=
  ∃ (check : list string → option exn) (p : Row → bool),
    ∀ df, f df = match check (columns df) with
                 | Some e => Raise e
                 | None => Ok (where_ df p)
                 end.

(** The frames that reach the metrics, the charts and the download: what
    either script computes from a file it could load and some state of its
    widgets. *)
Definition filtered_view (fd : DataFrame) : Prop :=
  (∃ file data w,
      App.load_data file = Ok data ∧ App.filtered_data data w = Ok fd) ∨
  (∃ file page data w,
      AppUpdated.load_data file = (page, Ok data) ∧
      AppUpdated.filtered_data data w = Ok fd).

(** The invariant of the derived column. *)
Definition sales_is_product (r : Row) : Prop :=
  ∃ p q, r !! "Price" = Some (Num p) ∧ r !! "Quantity" = Some (Num q) ∧
         r !! "Sales" = Some (Num (p * q)%Qc).

(** The data model's Quantity: a whole number. *)
Definition whole_quantity (r : Row) : Prop :=
  ∃ z : Z, r !! "Quantity" = Some (Num (Qc_of_Z z)).

(** Where the rationals are the columns' arithmetic.  The entries of a
    column are whole numbers whose magnitudes add up to 2^53 at most: then
    every sum of some of them, taken in any order and grouping, is a whole
    number below 2^53 in magnitude at every step, which int64 holds
    without wrapping and float64 without rounding.  With Price, Quantity
    and Sales such columns, every product of a row is exact as well. *)
Definition whole_column (name : string) (fd : DataFrame) : Prop :=
  ∃ zs : list Z,
    (λ r : Row, r !! name) <$> rows fd = (λ z, Some (Num (Qc_of_Z z))) <$> zs ∧
    (foldr (λ z acc, Z.abs z + acc) 0 zs ≤ 2 ^ 53)%Z.

Definition exact_figures (fd : DataFrame) : Prop :=
  whole_column "Price" fd ∧ whole_column "Quantity" fd ∧ whole_column "Sales" fd.

(** A file in which every line without a missing value has numbers under
    Price and Quantity. *)
Definition numeric_file (csv : DataFrame) : Prop :=
  ∀ r, r ∈ rows csv → complete (columns csv) r →
    (∃ p, r !! "Price" = Some (Num p)) ∧ (∃ q, r !! "Quantity" = Some (Num q)).

(** A multiselect state of [app.py] and a select box state of
    [app_updated.py] that mean the same: everything (all values selected,
    "All" chosen), or one value other than the word "All". *)
Definition same_selection (data : DataFrame) (column : string)
    (multi : list cell) (single : cell) : Prop :=
  (single = Str "All" ∧ App.options data column = Ok multi) ∨
  (single ≠ Str "All" ∧ multi = [single]).

(** * Example data *)

(** The two transactions of the worked example. *)

Definition sale (price quantity : Z) (country product : string) : Row :=
  <["Price" := Num (Qc_of_Z price)]> (<["Quantity" := Num (Qc_of_Z quantity)]>
  (<["Country" := Str country]> (<["ProductName" := Str product]> ∅))).

(** A line of the file, and the row that [load_data] makes of it. *)
Definition csv_row (date : string) (price quantity : Z) (country product : string)
    : Row :=
  <["Date" := Str date]> (sale price quantity country product).

Definition data_row (date : Timestamp) (price quantity : Z) (country product : string)
    : Row :=
  <["Sales" := Num (Qc_of_Z price * Qc_of_Z quantity)%Qc]>
  (<["Date" := Ts date]> (sale price quantity country product)).

Definition example_csv : DataFrame :=
  mkDF ["Date"; "Price"; "Quantity"; "Country"; "ProductName"]
       [csv_row "1/1/2023" 10 2 "US" "Widget"; csv_row "2/1/2023" 5 4 "UK" "Gadget"].

Definition example_data : DataFrame :=
  mkDF ["Date"; "Price"; "Quantity"; "Country"; "ProductName"; "Sales"]
       [data_row (mkTs 2023 1 1) 10 2 "US" "Widget";
        data_row (mkTs 2023 2 1) 5 4 "UK" "Gadget"].

(** Every date, every country and every product selected. *)
Definition select_all : App.Widgets :=
  {| App.date_range := [mkTs 2023 1 1; mkTs 2023 2 1];
     App.selected_country := [Str "US"; Str "UK"];
     App.selected_product := [Str "Widget"; Str "Gadget"];
     App.price_input := Qc_of_Z 10;
     App.quantity_input := 1 |}.

(** Only the country US selected. *)
Definition select_US : App.Widgets :=
  {| App.date_range := [mkTs 2023 1 1; mkTs 2023 2 1];
     App.selected_country := [Str "US"];
     App.selected_product := [Str "Widget"; Str "Gadget"];
     App.price_input := Qc_of_Z 10;
     App.quantity_input := 1 |}.

Definition select_all_updated : AppUpdated.Widgets :=
  {| AppUpdated.date_range := [mkTs 2023 1 1; mkTs 2023 2 1];
     AppUpdated.selected_country := Str "All";
     AppUpdated.selected_product := Str "All";
     AppUpdated.price_range := (Qc_of_Z 5, Qc_of_Z 10);
     AppUpdated.quantity_range := (2, 4)%Z;
     AppUpdated.price_input := Qc_of_Z 10;
     AppUpdated.quantity_input := 1 |}.

(** The country selection emptied, everything else selected. *)
Definition select_no_country : App.Widgets :=
  {| App.date_range := [mkTs 2023 1 1; mkTs 2023 2 1];
     App.selected_country := [];
     App.selected_product := [Str "Widget"; Str "Gadget"];
     App.price_input := Qc_of_Z 10;
     App.quantity_input := 1 |}.

(** The example file and data with the two rows in the other order. *)
Definition example_reversed_csv : DataFrame :=
  mkDF (columns example_csv)
       [csv_row "2/1/2023" 5 4 "UK" "Gadget"; csv_row "1/1/2023" 10 2 "US" "Widget"].

Definition example_reversed : DataFrame :=
  mkDF (columns example_data)
       [data_row (mkTs 2023 2 1) 5 4 "UK" "Gadget";
        data_row (mkTs 2023 1 1) 10 2 "US" "Widget"].

(** A file with every required column but Country. *)
Definition csv_without_country : DataFrame :=
  mkDF ["Date"; "Price"; "Quantity"; "ProductName"]
       [delete "Country" (csv_row "1/1/2023" 10 2 "US" "Widget")].

(** A file, and its data, in which a country is called "All". *)
Definition all_csv : DataFrame :=
  mkDF (columns example_csv)
       [csv_row "1/1/2023" 10 2 "All" "Widget"; csv_row "2/1/2023" 5 4 "US" "Gadget"].

Definition all_data : DataFrame :=
  mkDF ["Date"; "Price"; "Quantity"; "Country"; "ProductName"; "Sales"]
       [data_row (mkTs 2023 1 1) 10 2 "All" "Widget";
        data_row (mkTs 2023 2 1) 5 4 "US" "Gadget"].

Definition select_country_All : App.Widgets :=
  {| App.date_range := [mkTs 2023 1 1; mkTs 2023 2 1];
     App.selected_country := [Str "All"];
     App.selected_product := [Str "Widget"; Str "Gadget"];
     App.price_input := Qc_of_Z 10;
     App.quantity_input := 1 |}.

(** Two sales of one product in one country on one day, at two prices. *)
Definition two_prices_csv : DataFrame :=
  mkDF (columns example_csv)
       [csv_row "1/1/2023" 10 2 "US" "Widget"; csv_row "1/1/2023" 5 4 "US" "Widget"].

Definition two_prices : DataFrame :=
  mkDF ["Date"; "Price"; "Quantity"; "Country"; "ProductName"; "Sales"]
       [data_row (mkTs 2023 1 1) 10 2 "US" "Widget";
        data_row (mkTs 2023 1 1) 5 4 "US" "Widget"].

Definition select_price_10 : AppUpdated.Widgets :=
  {| AppUpdated.date_range := [mkTs 2023 1 1; mkTs 2023 2 1];
     AppUpdated.selected_country := Str "All";
     AppUpdated.selected_product := Str "All";
     AppUpdated.price_range := (Qc_of_Z 10, Qc_of_Z 10);
     AppUpdated.quantity_range := (2, 4)%Z;
     AppUpdated.price_input := Qc_of_Z 10;
     AppUpdated.quantity_input := 1 |}.

(** Loaded data with quantities that are not whole: a half and two and a
    half. *)
Definition fractional_sale (date : Timestamp) (quantity : Qc) : Row :=
  <["Sales" := Num (Qc_of_Z 10 * quantity)%Qc]> (<["Date" := Ts date]>
  (<["Price" := Num (Qc_of_Z 10)]> (<["Quantity" := Num quantity]>
  (<["Country" := Str "US"]> (<["ProductName" := Str "Widget"]> ∅))))).

Definition fractional_data : DataFrame :=
  mkDF ["Date"; "Price"; "Quantity"; "Country"; "ProductName"; "Sales"]
       [fractional_sale (mkTs 2023 1 1) (Q2Qc (1 # 2));
        fractional_sale (mkTs 2023 1 2) (Q2Qc (5 # 2))].

(** The price 0.1 as [read_csv] holds it: the double nearest to one
    tenth. *)
Definition tenth : spec_float := float64_of_decimal 1 1.

(** * Further vocabulary *)

(** The sum of a list of numbers. *)
Definition Qsum (l : list Qc) : Qc := foldr Qcplus 0%Qc l.

(** [data['Date'].min()] and [data['Date'].max()]: the first and the last
    day of a Series of timestamps, [None] (NaT) when it holds none. *)
Definition stamps (s : Series) : list Timestamp :=
  omap (λ c, match c with Some (Ts t) => Some t | _ => None end) s.
Definition ts_min (a b : Timestamp) : Timestamp := if ts_leb a b then a else b.
Definition ts_max (a b : Timestamp) : Timestamp := if ts_leb a b then b else a.
Definition date_min (s : Series) : option Timestamp := reduce ts_min (stamps s).
Definition date_max (s : Series) : option Timestamp := reduce ts_max (stamps s).

(** The value that the date picker of both scripts starts with:
    [[data['Date'].min(), data['Date'].max()]]. *)
Definition default_date_range (data : DataFrame)
    : result (option (list Timestamp)) :=
  d ← getitem data "Date";
  Ok (lo ← date_min d; hi ← date_max d; Some [lo; hi]).

(** The test that the whole filter chain of [app_updated.py] puts a row to. *)
Definition selected_or_All (selected : cell) (column : string) (r : Row) : bool :=
  if decide (selected = Str "All") then true else eq_cell_at selected (r !! column).

Definition passes_updated (w : AppUpdated.Widgets) (r : Row) : bool :=
  match AppUpdated.date_range w with
  | [d0; d1] => in_dates d0 d1 r
  | _ => true
  end &&
  selected_or_All (AppUpdated.selected_country w) "Country" r &&
  selected_or_All (AppUpdated.selected_product w) "ProductName" r &&
  in_prices (AppUpdated.price_range w) r &&
  in_quantities (AppUpdated.quantity_range w) r.

(** The test that the two filters of [app.py] put a row to. *)
Definition passes (w : App.Widgets) (r : Row) : bool :=
  match App.date_range w with
  | [d0; d1] => in_dates d0 d1 r
  | _ => true
  end &&
  in_selection (App.selected_country w) (App.selected_product w) r.

(** What [load_data] makes of a file: the rows of the file without a
    missing value, in their order, each with its date parsed, its Sales
    set to Price times Quantity and every other entry as it was. *)
Definition cleaned_row (r r' : Row) : Prop :=
  ∃ t p q,
    to_datetime_cell (r !! "Date") = Ok (Some (Ts t)) ∧
    r !! "Price" = Some (Num p) ∧ r !! "Quantity" = Some (Num q) ∧
    r' !! "Date" = Some (Ts t) ∧ r' !! "Sales" = Some (Num (p * q)%Qc) ∧
    ∀ c, c ≠ "Date" → c ≠ "Sales" → r' !! c = r !! c.

Definition loaded_from (csv data : DataFrame) : Prop :=
  Forall2 cleaned_row (filter (λ r, complete (columns csv) r) (rows csv))
          (rows data) ∧
  Forall (λ r' : Row, ∀ c, c ∈ columns data → is_Some (r' !! c)) (rows data).

(** A file whose second line has no thirteenth month to offer, and one
    whose second line lacks its price. *)
Definition bad_date_csv : DataFrame :=
  mkDF (columns example_csv)
       [csv_row "1/1/2023" 10 2 "US" "Widget"; csv_row "13/1/2023" 5 4 "UK" "Gadget"].

Definition missing_price_csv : DataFrame :=
  mkDF (columns example_csv)
       [csv_row "1/1/2023" 10 2 "US" "Widget";
        delete "Price" (csv_row "13/1/2023" 5 4 "UK" "Gadget")].

(** Only the country UK selected. *)
Definition select_UK : App.Widgets :=
  {| App.date_range := [mkTs 2023 1 1; mkTs 2023 2 1];
     App.selected_country := [Str "UK"];
     App.selected_product := [Str "Widget"; Str "Gadget"];
     App.price_input := Qc_of_Z 10;
     App.quantity_input := 1 |}.

(** A file with every required column but Price. *)
Definition csv_without_price : DataFrame :=
  mkDF ["Date"; "Quantity"; "Country"; "ProductName"]
       [delete "Price" (csv_row "1/1/2023" 10 2 "US" "Widget")].

(** * Properties *)

(** ** The stable sort is a [sort_values] *)

Lemma insert_sorted_perm {A} (leb : A → A → bool) x l :
  insert_sorted leb x l ≡ₚ x :: l.
Proof.
  induction l as [|y l IH]; simpl; [done|].
  destruct (leb x y); [done|]. rewrite IH. apply Permutation_swap.
Qed.

Lemma insertion_sort_perm {A} (leb : A → A → bool) l :
  insertion_sort leb l ≡ₚ l.
Proof.
  induction l as [|x l IH]; simpl; [done|].
  rewrite insert_sorted_perm. by rewrite IH.
Qed.

Lemma insert_sorted_Sorted {A} (leb : A → A → bool) x l :
  (∀ a b, leb a b = false → leb b a = true) →
  Sorted (λ a b, leb a b = true) l →
  Sorted (λ a b, leb a b = true) (insert_sorted leb x l).
Proof.
  intros Htot. induction 1 as [|y l Hs IH Hhd]; simpl.
  { repeat constructor. }
  destruct (leb x y) eqn:Hxy.
  - repeat constructor; done.
  - constructor; [done|].
    destruct Hhd as [|z l' Hyz]; simpl.
    + constructor. by apply Htot.
    + destruct (leb x z); constructor; auto.
Qed.

Lemma insertion_sort_Sorted {A} (leb : A → A → bool) l :
  (∀ a b, leb a b = false → leb b a = true) →
  Sorted (λ a b, leb a b = true) (insertion_sort leb l).
Proof.
  intros Htot. induction l as [|x l IH]; simpl; [constructor|].
  by apply insert_sorted_Sorted.
Qed.

Lemma value_leb_total a b : value_leb a b = false → value_leb b a = true.
Proof.
  unfold value_leb. rewrite bool_decide_eq_false, bool_decide_eq_true.
  intros Hn. destruct (Qclt_le_dec a.2 b.2) as [Hlt|Hle]; [|done].
  destruct Hn. by apply Qclt_le_weak.
Qed.

Lemma nargsort_desc_perm l : nargsort_desc l ≡ₚ l.
Proof.
  unfold nargsort_desc.
  by rewrite reverse_Permutation, insertion_sort_perm, reverse_Permutation.
Qed.

Lemma nargsort_desc_sorted l : Sorted desc (nargsort_desc l).
Proof.
  unfold nargsort_desc.
  pose proof (insertion_sort_Sorted value_leb (reverse l) value_leb_total) as Hs.
  apply Sorted_reverse in Hs.
  eapply Sorted_fmap with (f := id) in Hs; [by rewrite list_fmap_id in Hs|].
  intros x y. unfold flip, desc, value_leb. by rewrite bool_decide_eq_true.
Qed.

Global Instance nargsort : SortValues :=
  {| sort_values_desc := nargsort_desc;
     sort_values_perm := nargsort_desc_perm;
     sort_values_sorted := nargsort_desc_sorted |}.

(** ** Masks, selections and the error monad *)

(** A mask computed row by row selects as [filter] does. *)
Lemma select_fmap {A} (p : A → bool) (l : list A) :
  select l (p <$> l) = filter (λ x, p x) l.
Proof.
  induction l as [|x l IH]; [done|]. cbn [fmap list_fmap select].
  rewrite IH, filter_cons. destruct (p x); by case_decide.
Qed.

Lemma mask_and_fmap {A} (f g : A → bool) (l : list A) :
  mask_and (f <$> l) (g <$> l) = (λ x, f x && g x) <$> l.
Proof. unfold mask_and. induction l; simpl; f_equal; done. Qed.

Lemma mapM_cons {A B} (f : A → result B) x l :
  mapM f (x :: l) =
    match f x with
    | Ok y => match mapM f l with Ok k => Ok (y :: k) | Raise e => Raise e end
    | Raise e => Raise e
    end.
Proof. simpl. unfold mbind, result_bind. by destruct (f x), (mapM f l). Qed.

Lemma mapM_Ok {A B} (f : A → result B) l k :
  mapM f l = Ok k ↔ Forall2 (λ x y, f x = Ok y) l k.
Proof.
  revert k. induction l as [|x l IH]; intros k.
  - split; [intros Hk; cbv in Hk; simplify_eq; constructor | by inversion 1].
  - rewrite mapM_cons. destruct (f x) as [y|e] eqn:Hfx.
    + destruct (mapM f l) as [k'|e] eqn:Hl.
      * split.
        -- intros [= <-]. constructor; [done|]. by apply IH.
        -- inversion 1 as [|???? Hy Hk]; simplify_eq.
           apply IH in Hk. congruence.
      * split; [done|]. inversion 1 as [|???? Hy Hk]; simplify_eq.
        apply IH in Hk. done.
    + split; [done|]. inversion 1; congruence.
Qed.

Lemma mapM_Raise_hd {A B} (f : A → result B) x l e :
  f x = Raise e → mapM f (x :: l) = Raise e.
Proof. intros Hx. by rewrite mapM_cons, Hx. Qed.

Lemma zip_fmap_same {A B C} (f : A → B) (g : A → C) (l : list A) :
  zip (f <$> l) (g <$> l) = (λ x, (f x, g x)) <$> l.
Proof. induction l; simpl; f_equal; done. Qed.

Lemma Forall2_elem_of_r {A B} (P : A → B → Prop) l k y :
  Forall2 P l k → y ∈ k → ∃ x, x ∈ l ∧ P x y.
Proof.
  induction 1 as [|x y' l k Hxy _ IH]; [by intros ?%elem_of_nil|].
  intros [->|Hin]%elem_of_cons.
  - exists x. split; [left|done].
  - destruct (IH Hin) as (x' & ? & ?). exists x'. split; [by right|done].
Qed.

Lemma filter_all {A} (P : A → Prop) `{∀ x, Decision (P x)} (l : list A) :
  Forall P l → filter P l = l.
Proof.
  induction 1 as [|x l Hx _ IH]; [done|]. rewrite filter_cons_True by done.
  by rewrite IH.
Qed.

Lemma filter_none {A} (P : A → Prop) `{∀ x, Decision (P x)} (l : list A) :
  Forall (λ x, ¬ P x) l → filter P l = [].
Proof.
  induction 1 as [|x l Hx _ IH]; [done|]. by rewrite filter_cons_False.
Qed.

Lemma filter_idemp {A} (P : A → Prop) `{∀ x, Decision (P x)} (l : list A) :
  filter P (filter P l) = filter P l.
Proof. apply filter_all, Forall_forall. by intros x [? _]%list_elem_of_filter. Qed.

Lemma bind_Ok {A B} (m : result A) (f : A → result B) b :
  m ≫= f = Ok b ↔ ∃ a, m = Ok a ∧ f a = Ok b.
Proof.
  unfold mbind, result_bind. destruct m as [a|e].
  - split; [by exists a | by intros (? & [= ->] & ?)].
  - split; [done | by intros (? & ? & ?)].
Qed.

Lemma getitem_Ok df name s :
  getitem df name = Ok s ↔ name ∈ columns df ∧ s = (λ r : Row, r !! name) <$> rows df.
Proof.
  unfold getitem. destruct (decide (name ∈ columns df)) as [Hin|Hnin].
  - split; [by intros [= <-]|]. by intros [_ ->].
  - split; [done|]. by intros [? _].
Qed.

Lemma getitem_in df name :
  name ∈ columns df → getitem df name = Ok ((λ r : Row, r !! name) <$> rows df).
Proof. intros. by apply getitem_Ok. Qed.

Lemma getitem_not_in df name :
  name ∉ columns df → getitem df name = Raise (KeyError name).
Proof. intros. unfold getitem. by case_decide. Qed.

Lemma filter_ext_elem {A} (P Q : A → Prop) `{∀ x, Decision (P x)}
    `{∀ x, Decision (Q x)} (l : list A) :
  (∀ x, x ∈ l → P x ↔ Q x) → filter P l = filter Q l.
Proof.
  induction l as [|x l IH]; intros Hext; [done|].
  rewrite !filter_cons.
  destruct (decide (P x)) as [HP|HP], (decide (Q x)) as [HQ|HQ].
  - f_equal. apply IH. intros y Hy. apply Hext. by right.
  - destruct HQ. apply Hext; [left|done].
  - destruct HP. apply Hext; [left|done].
  - apply IH. intros y Hy. apply Hext. by right.
Qed.

(** [unique] keeps every value once. *)
Lemma elem_of_unique_acc {A} `{EqDecision A} (seen l : list A) x :
  x ∈ unique_acc seen l ↔ x ∈ l ∧ x ∉ seen.
Proof.
  revert seen. induction l as [|y l IH]; intros seen; simpl.
  { split; [by intros ?%elem_of_nil|by intros [?%elem_of_nil _]]. }
  destruct (decide (y ∈ seen)) as [Hy|Hy].
  - rewrite IH, elem_of_cons. split; [tauto|]. intros [[->|?] ?]; tauto.
  - rewrite !elem_of_cons, IH, elem_of_cons. split.
    + intros [->|[? Hn]]; [tauto|]. split; [tauto|]. tauto.
    + intros [[->|?] ?]; [tauto|]. destruct (decide (x = y)); [tauto|].
      right. split; [done|]. intros [?|?]; done.
Qed.

Lemma elem_of_unique {A} `{EqDecision A} (l : list A) x : x ∈ unique l ↔ x ∈ l.
Proof.
  unfold unique. rewrite elem_of_unique_acc. split; [tauto|].
  intros ?. split; [done|]. apply not_elem_of_nil.
Qed.

Lemma NoDup_unique_acc {A} `{EqDecision A} (seen l : list A) :
  NoDup (unique_acc seen l).
Proof.
  revert seen. induction l as [|y l IH]; intros seen; simpl; [constructor|].
  destruct (decide (y ∈ seen)); [done|]. constructor; [|done].
  rewrite elem_of_unique_acc. intros [_ []]. left.
Qed.

Lemma NoDup_unique {A} `{EqDecision A} (l : list A) : NoDup (unique l).
Proof. apply NoDup_unique_acc. Qed.

Lemma Sorted_take {A} (R : relation A) l n : Sorted R l → Sorted R (take n l).
Proof.
  intros Hs. revert n. induction Hs as [|x l Hs IH Hhd]; intros [|n]; simpl;
    try constructor; [apply IH|].
  destruct Hhd, n; simpl; by constructor.
Qed.

Lemma select_fmap_fmap {A B} (f : A → B) (p : A → bool) (l : list A) :
  select (f <$> l) (p <$> l) = f <$> filter (λ x, p x) l.
Proof.
  induction l as [|x l IH]; [done|]. cbn [fmap list_fmap select].
  rewrite filter_cons. destruct (p x) eqn:Hp.
  - rewrite decide_True by done. cbn [fmap list_fmap]. by rewrite <-IH.
  - rewrite decide_False by (by intros []). done.
Qed.

(** ** What [load_data] returns *)

Lemma complete_lookup cols (r : Row) c :
  complete cols r → c ∈ cols → is_Some (r !! c).
Proof.
  unfold complete. rewrite forallb_True, Forall_forall. intros Hall Hc.
  specialize (Hall _ Hc). by apply bool_decide_unpack in Hall.
Qed.

Lemma complete_intro cols (r : Row) :
  (∀ c, c ∈ cols → is_Some (r !! c)) → complete cols r.
Proof.
  intros Hall. unfold complete. rewrite forallb_True, Forall_forall.
  intros c Hc. by apply bool_decide_pack, Hall.
Qed.

(** When [load_data] returns, the file had the three columns it reads, and
    every complete row of the file has become a row of the data, with its
    date parsed and its Sales set. *)
Lemma load_data_rows csv data :
  App.load_data (Some csv) = Ok data →
  Forall (λ c, c ∈ columns csv) ["Date"; "Price"; "Quantity"] ∧
  columns data = (if decide ("Sales" ∈ columns csv) then columns csv
                  else columns csv ++ ["Sales"])%list ∧
  Forall2 (λ r r' : Row, ∃ t p q,
      to_datetime_cell (r !! "Date") = Ok (Some (Ts t)) ∧
      r !! "Price" = Some (Num p) ∧ r !! "Quantity" = Some (Num q) ∧
      r' = <["Sales" := Num (p * q)%Qc]> (<["Date" := Ts t]> r))
    (rows (dropna csv)) (rows data).
Proof.
  unfold App.load_data, read_csv. rewrite bind_Ok. intros (? & [= <-] & H).
  apply bind_Ok in H as (date & [Hdate ->]%getitem_Ok & H).
  apply bind_Ok in H as (date' & Hparse%mapM_Ok & H).
  apply bind_Ok in H as (price & [Hprice ->]%getitem_Ok & H).
  apply bind_Ok in H as (qty & [Hqty ->]%getitem_Ok & H).
  apply bind_Ok in H as (sales & Hmul%mapM_Ok & [= <-]).
  simpl in *. destruct (decide ("Date" ∈ columns csv)); [|done].
  split; [by repeat constructor|]. split; [done|].
  rewrite zip_fmap_same, Forall2_fmap_l in Hmul.
  rewrite Forall2_fmap_l in Hparse.
  set (rows0 := filter _ (rows csv)) in *.
  assert (Forall (λ r, complete (columns csv) r) rows0) as Hcomplete.
  { apply Forall_forall. by intros r [? _]%list_elem_of_filter. }
  clearbody rows0.
  revert date' sales Hparse Hmul.
  induction Hcomplete as [|r rows0 Hr _ IH]; intros date' sales Hparse Hmul.
  { inversion Hparse; simplify_eq. constructor. }
  inversion Hparse as [|? c' ? date'' Hc Hparse']; simplify_eq.
  cbn [zip_with] in Hmul.
  inversion Hmul as [|? s ? sales' Hs Hmul']; simplify_eq.
  cbn [zip_with]. constructor; [|by apply IH].
  destruct (complete_lookup _ r "Date" Hr Hdate) as [d Hd].
  destruct (complete_lookup _ r "Price" Hr Hprice) as [p Hp].
  destruct (complete_lookup _ r "Quantity" Hr Hqty) as [q Hq].
  unfold compose in Hc, Hs. rewrite Hd in Hc.
  assert (∃ t, c' = Some (Ts t)) as [t ->].
  { destruct d as [?|s0|?]; simpl in Hc; [done| |naive_solver].
    destruct (strptime s0); naive_solver. }
  simpl in Hs. rewrite !lookup_insert_ne, Hp, Hq in Hs by done.
  destruct p as [p| |], q as [q| |]; simplify_eq.
  exists t, p, q. by rewrite Hd.
Qed.

Lemma load_data_Some file data :
  App.load_data file = Ok data → ∃ csv, file = Some csv.
Proof. destruct file; [eauto|]. by intros (? & ? & _)%bind_Ok. Qed.

(** So the data that [load_data] returns are well formed. *)
Lemma load_data_loaded file data : App.load_data file = Ok data → loaded data.
Proof.
  intros Hload. destruct (load_data_Some _ _ Hload) as [csv ->].
  apply load_data_rows in Hload as (Hcols & Hcolumns & Hrows).
  assert (∀ c, c ∈ columns csv → c ∈ columns data) as Hsub.
  { intros c Hc. rewrite Hcolumns. destruct (decide _); [done|].
    apply elem_of_app. by left. }
  assert ("Sales" ∈ columns data) as Hsales.
  { rewrite Hcolumns. destruct (decide _); [done|].
    apply elem_of_app. right. by apply list_elem_of_singleton. }
  assert (∀ c, c ∈ columns data → c ∈ columns csv ∨ c = "Sales") as Hinv.
  { intros c. rewrite Hcolumns. destruct (decide _); [by left|].
    intros [?| ->%list_elem_of_singleton]%elem_of_app; [by left|by right]. }
  rewrite !Forall_cons in Hcols. destruct Hcols as (Hdate & Hprice & Hqty & _).
  split.
  - repeat constructor; auto.
  - apply Forall_forall. intros r' Hr'.
    destruct (Forall2_elem_of_r _ _ _ _ Hrows Hr') as (r & Hr & t & p & q & _ & _ & _ & ->).
    apply list_elem_of_filter in Hr as [Hr _].
    apply complete_intro. intros c [Hc| ->]%Hinv.
    + destruct (decide (c = "Sales")) as [->|]; [by rewrite lookup_insert_eq|].
      rewrite lookup_insert_ne by done.
      destruct (decide (c = "Date")) as [->|]; [by rewrite lookup_insert_eq|].
      rewrite lookup_insert_ne by done. by eapply complete_lookup.
    + by rewrite lookup_insert_eq.
  - apply Forall_forall. intros r' Hr'.
    destruct (Forall2_elem_of_r _ _ _ _ Hrows Hr') as (r & Hr & t & p & q & _ & Hp & Hq & ->).
    exists t, p, q. by simplify_map_eq.
Qed.

(** [app_updated.py] checks the header first and then loads as [app.py] does. *)
Lemma load_data_updated file :
  AppUpdated.load_data file =
    match file with
    | None => ([], Raise FileNotFoundError)
    | Some csv =>
        if forallb (λ col, bool_decide (col ∈ columns csv)) AppUpdated.required_columns
        then run (App.load_data file)
        else ([st_error "The dataset is missing required columns."],
              Raise StopException)
    end.
Proof.
  destruct file as [csv|]; [|done].
  unfold AppUpdated.load_data, App.load_data, read_csv, run. cbn [mbind script_bind result_bind].
  change (columns (dropna csv)) with (columns csv).
  destruct (forallb _ _); [|done]. cbn [mbind script_bind mret script_ret].
  destruct (getitem (dropna csv) "Date") as [date|]; [|done]. cbn [mbind script_bind result_bind].
  destruct (to_datetime date) as [date'|]; [|done]. cbn [mbind script_bind result_bind].
  destruct (getitem _ "Price") as [price|]; [|done]. cbn [mbind script_bind result_bind].
  destruct (getitem _ "Quantity") as [qty|]; [|done]. cbn [mbind script_bind result_bind].
  by destruct (series_mul price qty).
Qed.

(** ** The filters, row by row *)

(** Selecting by masks computed from columns is keeping the rows that pass
    the test the masks compute. *)
Lemma loc_two_masks df n1 n2 (f g : option cell → bool) :
  loc df (mask_and (f <$> ((λ r : Row, r !! n1) <$> rows df))
                   (g <$> ((λ r : Row, r !! n2) <$> rows df))) =
  where_ df (λ r, f (r !! n1) && g (r !! n2)).
Proof.
  unfold loc, where_. f_equal.
  by rewrite <-!list_fmap_compose, mask_and_fmap, select_fmap.
Qed.

Lemma loc_one_mask df n (f : option cell → bool) :
  loc df (f <$> ((λ r : Row, r !! n) <$> rows df)) = where_ df (λ r, f (r !! n)).
Proof.
  unfold loc, where_. f_equal. by rewrite <-list_fmap_compose, select_fmap.
Qed.

Lemma date_filter_eq data date_range :
  date_filter data date_range =
    match date_range with
    | [d0; d1] =>
        if decide ("Date" ∈ columns data) then Ok (where_ data (in_dates d0 d1))
        else Raise (KeyError "Date")
    | _ => Ok data
    end.
Proof.
  destruct date_range as [|d0 [|d1 [|]]]; try done. unfold date_filter.
  destruct (decide ("Date" ∈ columns data));
    [|by rewrite (getitem_not_in _ "Date")].
  rewrite !(getitem_in _ "Date") by done. cbn [mbind result_bind].
  unfold ge_ts, le_ts, ge_num, le_num, isin. by rewrite loc_two_masks.
Qed.

Lemma category_filter_eq fd sc sp :
  App.category_filter fd sc sp =
    if decide ("Country" ∈ columns fd) then
      if decide ("ProductName" ∈ columns fd) then Ok (where_ fd (in_selection sc sp))
      else Raise (KeyError "ProductName")
    else Raise (KeyError "Country").
Proof.
  unfold App.category_filter.
  destruct (decide ("Country" ∈ columns fd));
    [|by rewrite (getitem_not_in _ "Country")].
  rewrite !(getitem_in _ "Country") by done. cbn [mbind result_bind].
  destruct (decide ("ProductName" ∈ columns fd));
    [|by rewrite (getitem_not_in _ "ProductName")].
  rewrite !(getitem_in _ "ProductName") by done. cbn [mbind result_bind].
  unfold isin. by rewrite loc_two_masks.
Qed.

Lemma selectbox_filter_eq fd column selected :
  AppUpdated.selectbox_filter fd column selected =
    if decide (selected = Str "All") then Ok fd
    else if decide (column ∈ columns fd)
         then Ok (where_ fd (λ r, eq_cell_at selected (r !! column)))
         else Raise (KeyError column).
Proof.
  unfold AppUpdated.selectbox_filter.
  destruct (decide (selected = Str "All")) as [->|Hne].
  { by rewrite decide_False by (by intros []). }
  rewrite decide_True by done.
  destruct (decide (column ∈ columns fd)); [|by rewrite getitem_not_in].
  rewrite getitem_in by done. cbn [mbind result_bind].
  unfold eq_cell. by rewrite loc_one_mask.
Qed.

Lemma price_filter_eq fd pr :
  AppUpdated.price_filter fd pr =
    if decide ("Price" ∈ columns fd) then Ok (where_ fd (in_prices pr))
    else Raise (KeyError "Price").
Proof.
  unfold AppUpdated.price_filter.
  destruct (decide ("Price" ∈ columns fd));
    [|by rewrite (getitem_not_in _ "Price")].
  rewrite !(getitem_in _ "Price") by done. cbn [mbind result_bind].
  unfold ge_num, le_num. by rewrite loc_two_masks.
Qed.

Lemma quantity_filter_eq fd qr :
  AppUpdated.quantity_filter fd qr =
    if decide ("Quantity" ∈ columns fd) then Ok (where_ fd (in_quantities qr))
    else Raise (KeyError "Quantity").
Proof.
  unfold AppUpdated.quantity_filter.
  destruct (decide ("Quantity" ∈ columns fd));
    [|by rewrite (getitem_not_in _ "Quantity")].
  rewrite !(getitem_in _ "Quantity") by done. cbn [mbind result_bind].
  unfold ge_num, le_num. by rewrite loc_two_masks.
Qed.

Lemma where_where df p q :
  where_ (where_ df p) q = where_ df (λ r, q r && p r).
Proof.
  unfold where_. simpl. f_equal. rewrite list_filter_filter.
  apply list_filter_iff. intros r. by rewrite andb_True.
Qed.

Lemma where_idemp df p : where_ (where_ df p) p = where_ df p.
Proof. unfold where_. simpl. f_equal. apply filter_idemp. Qed.

Lemma where_view df p : view_of df (where_ df p).
Proof. split; [done|]. apply sublist_filter. Qed.

Lemma view_of_elem data fd r : view_of data fd → r ∈ rows fd → r ∈ rows data.
Proof. intros [_ Hsub] Hr. by eapply sublist_submseteq, elem_of_submseteq in Hsub. Qed.

Lemma view_of_Forall data fd (P : Row → Prop) :
  view_of data fd → Forall P (rows data) → Forall P (rows fd).
Proof.
  rewrite !Forall_forall. intros Hview Hall r Hr. eauto using view_of_elem.
Qed.

Lemma view_of_loaded data fd : view_of data fd → loaded data → loaded fd.
Proof.
  intros Hview [Hc Hcomp Htyped]. destruct (Hview) as [Hcols _].
  split; rewrite ?Hcols; [done| |]; by eapply view_of_Forall.
Qed.

Lemma where_true df : where_ df (λ _, true) = df.
Proof.
  destruct df as [cols rs]. unfold where_. simpl. f_equal.
  apply filter_all, Forall_forall. done.
Qed.

Lemma row_filter_compose f g :
  row_filter f → row_filter g → row_filter (λ df, f df ≫= g).
Proof.
  intros (cf & pf & Hf) (cg & pg & Hg).
  exists (λ cols, match cf cols with Some e => Some e | None => cg cols end),
         (λ r, pg r && pf r).
  intros df. rewrite Hf. destruct (cf (columns df)); [done|].
  cbn [mbind result_bind]. rewrite Hg. cbn [where_ columns].
  destruct (cg (columns df)); [done|]. by rewrite where_where.
Qed.

Lemma row_filter_idemp f d v : row_filter f → f d = Ok v → f v = Ok v.
Proof.
  intros (check & p & Hf). rewrite !Hf.
  destruct (check (columns d)) eqn:Hc; [done|]. intros [= <-].
  cbn [where_ columns]. by rewrite Hc, where_idemp.
Qed.

Lemma row_filter_view f d v : row_filter f → f d = Ok v → view_of d v.
Proof.
  intros (check & p & Hf). rewrite Hf.
  destruct (check (columns d)); [done|]. intros [= <-]. apply where_view.
Qed.

Lemma date_filter_row_filter date_range :
  row_filter (λ df, date_filter df date_range).
Proof.
  destruct date_range as [|d0 [|d1 [|]]].
  1,2,4: exists (λ _, None), (λ _, true); intros df;
    by rewrite date_filter_eq, where_true.
  exists (λ cols, if decide ("Date" ∈ cols) then None else Some (KeyError "Date")),
         (in_dates d0 d1).
  intros df. rewrite date_filter_eq. by destruct (decide _).
Qed.

Lemma category_filter_row_filter sc sp :
  row_filter (λ df, App.category_filter df sc sp).
Proof.
  exists (λ cols, if decide ("Country" ∈ cols) then
                    if decide ("ProductName" ∈ cols) then None
                    else Some (KeyError "ProductName")
                  else Some (KeyError "Country")),
         (in_selection sc sp).
  intros df. rewrite category_filter_eq. by repeat destruct (decide _).
Qed.

Lemma selectbox_filter_row_filter column selected :
  row_filter (λ df, AppUpdated.selectbox_filter df column selected).
Proof.
  destruct (decide (selected = Str "All")) as [->|Hne].
  - exists (λ _, None), (λ _, true). intros df.
    by rewrite selectbox_filter_eq, where_true.
  - exists (λ cols, if decide (column ∈ cols) then None else Some (KeyError column)),
           (λ r, eq_cell_at selected (r !! column)).
    intros df. rewrite selectbox_filter_eq, decide_False by done.
    by destruct (decide _).
Qed.

Lemma price_filter_row_filter pr : row_filter (λ df, AppUpdated.price_filter df pr).
Proof.
  exists (λ cols, if decide ("Price" ∈ cols) then None else Some (KeyError "Price")),
         (in_prices pr).
  intros df. rewrite price_filter_eq. by destruct (decide _).
Qed.

Lemma quantity_filter_row_filter qr :
  row_filter (λ df, AppUpdated.quantity_filter df qr).
Proof.
  exists (λ cols, if decide ("Quantity" ∈ cols) then None
                  else Some (KeyError "Quantity")),
         (in_quantities qr).
  intros df. rewrite quantity_filter_eq. by destruct (decide _).
Qed.

Lemma filtered_data_row_filter w : row_filter (λ df, App.filtered_data df w).
Proof.
  apply (row_filter_compose (λ df, date_filter df _) (λ df, App.category_filter df _ _));
    [apply date_filter_row_filter | apply category_filter_row_filter].
Qed.

Lemma basic_filters_row_filter w : row_filter (λ df, AppUpdated.basic_filters df w).
Proof.
  apply (row_filter_compose (λ df, date_filter df _)
           (λ df, AppUpdated.selectbox_filter df _ _ ≫=
                    λ fd, AppUpdated.selectbox_filter fd _ _));
    [apply date_filter_row_filter|].
  apply (row_filter_compose (λ df, AppUpdated.selectbox_filter df _ _)
           (λ df, AppUpdated.selectbox_filter df _ _));
    apply selectbox_filter_row_filter.
Qed.

Lemma filtered_data_updated_row_filter w :
  row_filter (λ df, AppUpdated.filtered_data df w).
Proof.
  apply (row_filter_compose (λ df, AppUpdated.basic_filters df w)
           (λ df, AppUpdated.price_filter df _ ≫=
                    λ fd, AppUpdated.quantity_filter fd _));
    [apply basic_filters_row_filter|].
  apply (row_filter_compose (λ df, AppUpdated.price_filter df _)
           (λ df, AppUpdated.quantity_filter df _));
    [apply price_filter_row_filter | apply quantity_filter_row_filter].
Qed.

Lemma where_all df (p : Row → bool) : Forall (λ r, p r) (rows df) → where_ df p = df.
Proof.
  intros Hall. destruct df as [cols rs]. unfold where_. cbn in *. f_equal.
  by apply filter_all.
Qed.

Lemma where_ext df (p q : Row → bool) :
  (∀ r, r ∈ rows df → p r = q r) → where_ df p = where_ df q.
Proof.
  intros Hext. unfold where_. f_equal. apply filter_ext_elem.
  intros r Hr. by rewrite (Hext r Hr).
Qed.

(** The filter chains return a frame whenever the columns they read are in
    the header. *)
Lemma filtered_data_total data w :
  loaded data → "Country" ∈ columns data → "ProductName" ∈ columns data →
  ∃ fd, App.filtered_data data w = Ok fd.
Proof.
  intros [Hcols _ _] Hc Hp. rewrite !Forall_cons in Hcols.
  destruct Hcols as (Hdate & _).
  unfold App.filtered_data. rewrite date_filter_eq.
  destruct (App.date_range w) as [|d0 [|d1 [|]]]; cbn [mbind result_bind];
    rewrite ?decide_True by done; cbn [mbind result_bind];
    rewrite category_filter_eq; cbn [where_ columns];
    rewrite !decide_True by done; eauto.
Qed.

Lemma filtered_data_updated_total data w :
  loaded data → "Country" ∈ columns data → "ProductName" ∈ columns data →
  ∃ fd, AppUpdated.filtered_data data w = Ok fd.
Proof.
  intros [Hcols _ _] Hc Hp. rewrite !Forall_cons in Hcols.
  destruct Hcols as (Hdate & Hprice & Hqty & _).
  assert (∀ fd, columns fd = columns data →
    ∃ fd', AppUpdated.selectbox_filter fd "Country" (AppUpdated.selected_country w)
             = Ok fd' ∧ columns fd' = columns data) as Hcountry.
  { intros fd Hfd. rewrite selectbox_filter_eq. destruct (decide _); [eauto|].
    rewrite decide_True by (by rewrite Hfd). eauto. }
  assert (∀ fd, columns fd = columns data →
    ∃ fd', AppUpdated.selectbox_filter fd "ProductName" (AppUpdated.selected_product w)
             = Ok fd' ∧ columns fd' = columns data) as Hproduct.
  { intros fd Hfd. rewrite selectbox_filter_eq. destruct (decide _); [eauto|].
    rewrite decide_True by (by rewrite Hfd). eauto. }
  assert (∃ fd, date_filter data (AppUpdated.date_range w) = Ok fd ∧
                columns fd = columns data) as (fd0 & Hfd0 & Hc0).
  { rewrite date_filter_eq.
    destruct (AppUpdated.date_range w) as [|d0 [|d1 [|]]];
      rewrite ?decide_True by done; eauto. }
  destruct (Hcountry fd0 Hc0) as (fd1 & Hfd1 & Hc1).
  destruct (Hproduct fd1 Hc1) as (fd2 & Hfd2 & Hc2).
  unfold AppUpdated.filtered_data, AppUpdated.basic_filters.
  rewrite Hfd0. cbn [mbind result_bind]. rewrite Hfd1. cbn [mbind result_bind].
  rewrite Hfd2. cbn [mbind result_bind].
  rewrite price_filter_eq, decide_True by (by rewrite Hc2). cbn [mbind result_bind].
  rewrite quantity_filter_eq. cbn [where_ columns].
  rewrite decide_True by (by rewrite Hc2). eauto.
Qed.

(** ** Filtered views *)

Lemma typed_row_sales r : typed_row r → sales_is_product r.
Proof. intros (t & p & q & _ & ? & ? & ?). by exists p, q. Qed.

(** What [app_updated.py] loads, [app.py] loads too, and it has every
    required column. *)
Lemma load_data_updated_Ok file page data :
  AppUpdated.load_data file = (page, Ok data) →
  App.load_data file = Ok data ∧ page = [] ∧
  Forall (λ c, c ∈ columns data) AppUpdated.required_columns.
Proof.
  rewrite load_data_updated. destruct file as [csv|]; [|done].
  destruct (forallb _ _) eqn:Hreq; [|done]. unfold run. intros [= <- Hload].
  split; [done|]. split; [done|].
  apply Is_true_true_2, forallb_True in Hreq.
  apply load_data_rows in Hload as (_ & Hcols & _).
  eapply Forall_impl; [exact Hreq|]. intros c Hc%bool_decide_unpack.
  rewrite Hcols. destruct (decide _); [done|]. apply elem_of_app. by left.
Qed.

(** A filtered view is a view of well-formed data. *)
Lemma filtered_view_loaded fd :
  filtered_view fd → ∃ data, loaded data ∧ view_of data fd.
Proof.
  intros [(file & data & w & Hload & Hfd)|(file & page & data & w & Hload & Hfd)].
  - exists data. split; [by eapply load_data_loaded|].
    by eapply (row_filter_view _ _ _ (filtered_data_row_filter w)).
  - exists data. apply load_data_updated_Ok in Hload as (Hload & _).
    split; [by eapply load_data_loaded|].
    by eapply (row_filter_view _ _ _ (filtered_data_updated_row_filter w)).
Qed.

Lemma nums_sales (rs : list Row) :
  Forall sales_is_product rs →
  ∃ products,
    Forall2 (λ (r : Row) x, ∃ p q, r !! "Price" = Some (Num p) ∧
                             r !! "Quantity" = Some (Num q) ∧ x = (p * q)%Qc)
            rs products ∧
    nums ((λ r : Row, r !! "Sales") <$> rs) = products.
Proof.
  induction 1 as [|r rs (p & q & Hp & Hq & Hs) _ (products & Hall & Hnums)].
  - exists []. split; [constructor|done].
  - exists ((p * q)%Qc :: products). split; [constructor; eauto|].
    unfold nums in *. cbn [fmap list_fmap omap list_omap]. rewrite Hs. by f_equal.
Qed.

(** ** The worked example, evaluated *)

(** Closed statements are decided by running the definitions. *)
Ltac by_evaluation := apply (bool_decide_unpack _); vm_compute; exact I.

Lemma example_load : App.load_data (Some example_csv) = Ok example_data.
Proof. by_evaluation. Qed.

Lemma example_load_updated :
  AppUpdated.load_data (Some example_csv) = ([], Ok example_data).
Proof. by_evaluation. Qed.

Lemma example_filtered_all : App.filtered_data example_data select_all = Ok example_data.
Proof. by_evaluation. Qed.

Lemma example_filtered_US :
  App.filtered_data example_data select_US =
    Ok (mkDF (columns example_data) [data_row (mkTs 2023 1 1) 10 2 "US" "Widget"]).
Proof. by_evaluation. Qed.

Lemma example_filtered_updated :
  AppUpdated.filtered_data example_data select_all_updated = Ok example_data.
Proof. by_evaluation. Qed.

(** The figures of the worked example: 40 in sales over 2 transactions and
    6 items without a filter, 20 over 1 transaction for the country US. *)
Lemma example_metrics :
  total_sales example_data = Ok (Qc_of_Z 40) ∧
  total_transactions example_data = 2 ∧
  total_quantity example_data = Ok (Qc_of_Z 6) ∧
  (App.filtered_data example_data select_US ≫= total_sales) = Ok (Qc_of_Z 20) ∧
  (total_transactions <$> App.filtered_data example_data select_US) = Ok 1.
Proof. repeat split; by_evaluation. Qed.

(** The figures of the worked example are whole numbers well within the
    exact range. *)
Lemma example_exact : exact_figures example_data.
Proof.
  split; [exists [10; 5]%Z|split; [exists [2; 4]%Z|exists [20; 20]%Z]];
    (split; [by_evaluation|by vm_compute]).
Qed.

Lemma example_US_exact :
  exact_figures
    (mkDF (columns example_data) [data_row (mkTs 2023 1 1) 10 2 "US" "Widget"]).
Proof.
  split; [exists [10]%Z|split; [exists [2]%Z|exists [20]%Z]];
    (split; [by_evaluation|by vm_compute]).
Qed.

(** ** The sliders' defaults *)

(** [min] and [max] of a Series are entries of it that bound the others. *)
Lemma foldl_Qc_min_le acc l :
  (foldl Qc_min acc l ≤ acc)%Qc ∧ Forall (λ x, (foldl Qc_min acc l ≤ x)%Qc) l.
Proof.
  revert acc. induction l as [|x l IH]; intros acc; simpl.
  { split; [apply Qcle_refl|constructor]. }
  destruct (IH (Qc_min acc x)) as [Hacc Hall].
  assert (Qc_min acc x ≤ acc ∧ Qc_min acc x ≤ x)%Qc as [H1 H2].
  { unfold Qc_min. case_bool_decide as Hle; split; try done; try apply Qcle_refl.
    apply Qclt_le_weak. by apply Qclt_nge. }
  split; [by etrans|]. constructor; [by etrans|done].
Qed.

Lemma foldl_Qc_max_ge acc l :
  (acc ≤ foldl Qc_max acc l)%Qc ∧ Forall (λ x, (x ≤ foldl Qc_max acc l)%Qc) l.
Proof.
  revert acc. induction l as [|x l IH]; intros acc; simpl.
  { split; [apply Qcle_refl|constructor]. }
  destruct (IH (Qc_max acc x)) as [Hacc Hall].
  assert (acc ≤ Qc_max acc x ∧ x ≤ Qc_max acc x)%Qc as [H1 H2].
  { unfold Qc_max. case_bool_decide as Hle; split; try done; try apply Qcle_refl.
    apply Qclt_le_weak. by apply Qclt_nge. }
  split; [by etrans|]. constructor; [by etrans|done].
Qed.

Lemma foldl_Qc_min_elem acc l : foldl Qc_min acc l ∈ acc :: l.
Proof.
  revert acc. induction l as [|x l IH]; intros acc; simpl; [left|].
  specialize (IH (Qc_min acc x)). unfold Qc_min in *.
  case_bool_decide; apply elem_of_cons in IH as [->|IH];
    rewrite !elem_of_cons; auto.
Qed.

Lemma foldl_Qc_max_elem acc l : foldl Qc_max acc l ∈ acc :: l.
Proof.
  revert acc. induction l as [|x l IH]; intros acc; simpl; [left|].
  specialize (IH (Qc_max acc x)). unfold Qc_max in *.
  case_bool_decide; apply elem_of_cons in IH as [->|IH];
    rewrite !elem_of_cons; auto.
Qed.

Lemma series_min_spec s m :
  series_min s = Some m → m ∈ nums s ∧ Forall (λ x, (m ≤ x)%Qc) (nums s).
Proof.
  unfold series_min, reduce. destruct (nums s) as [|x l]; [done|].
  intros [= <-]. split; [apply foldl_Qc_min_elem|].
  destruct (foldl_Qc_min_le x l). by constructor.
Qed.

Lemma series_max_spec s m :
  series_max s = Some m → m ∈ nums s ∧ Forall (λ x, (x ≤ m)%Qc) (nums s).
Proof.
  unfold series_max, reduce. destruct (nums s) as [|x l]; [done|].
  intros [= <-]. split; [apply foldl_Qc_max_elem|].
  destruct (foldl_Qc_max_ge x l). by constructor.
Qed.

Lemma elem_of_nums (rs : list Row) name r x :
  r ∈ rs → r !! name = Some (Num x) → x ∈ nums ((λ r : Row, r !! name) <$> rs).
Proof.
  intros Hr Hx. unfold nums. apply list_elem_of_omap.
  exists (Some (Num x)). split; [|done]. apply list_elem_of_fmap. eauto.
Qed.

Lemma nums_elem_of (rs : list Row) name x :
  x ∈ nums ((λ r : Row, r !! name) <$> rs) → ∃ r, r ∈ rs ∧ r !! name = Some (Num x).
Proof.
  unfold nums. intros (c & Hc & Hx)%list_elem_of_omap.
  apply list_elem_of_fmap in Hc as (r & -> & Hr). exists r. split; [done|].
  by destruct (r !! name) as [[]|]; simplify_eq.
Qed.

Lemma int_Qc_of_Z z : int (Some (Qc_of_Z z)) = Ok z.
Proof. unfold int. simpl. by rewrite Z.quot_1_r. Qed.

(** Every row of the data lies within the default ranges. *)
Lemma default_price_range_bounds data lo hi r :
  AppUpdated.default_price_range data = Ok (Some (lo, hi)) →
  r ∈ rows data → typed_row r → in_prices (lo, hi) r.
Proof.
  unfold AppUpdated.default_price_range.
  intros (p & [_ ->]%getitem_Ok & [= H])%bind_Ok Hr (t & x & q & _ & Hx & _).
  destruct (series_min _) as [lo'|] eqn:Hmin; [|done].
  destruct (series_max _) as [hi'|] eqn:Hmax; [|done].
  cbn in H. simplify_eq.
  apply series_min_spec in Hmin as [_ Hmin].
  apply series_max_spec in Hmax as [_ Hmax].
  pose proof (elem_of_nums _ _ _ _ Hr Hx) as Hin.
  rewrite Forall_forall in Hmin, Hmax.
  unfold in_prices, ge_num_cell, le_num_cell. rewrite Hx. cbn [fst snd].
  rewrite !bool_decide_eq_true_2; [done|by apply Hmax|by apply Hmin].
Qed.

Lemma default_quantity_range_bounds data lo hi r :
  Forall whole_quantity (rows data) →
  AppUpdated.default_quantity_range data = Ok (lo, hi) →
  r ∈ rows data → typed_row r → in_quantities (lo, hi) r.
Proof.
  unfold AppUpdated.default_quantity_range. intros Hwhole.
  intros (s & [_ ->]%getitem_Ok & H)%bind_Ok Hr (t & p & x & _ & _ & Hx & _).
  apply bind_Ok in H as (lo' & Hlo & H).
  apply bind_Ok in H as (hi' & Hhi & [= <- <-]).
  destruct (series_min _) as [qmin|] eqn:Hmin; [|done].
  destruct (series_max _) as [qmax|] eqn:Hmax; [|done].
  apply series_min_spec in Hmin as [Hmin_in Hmin].
  apply series_max_spec in Hmax as [Hmax_in Hmax].
  rewrite Forall_forall in Hwhole.
  apply nums_elem_of in Hmin_in as (r1 & Hr1 & Hq1).
  apply nums_elem_of in Hmax_in as (r2 & Hr2 & Hq2).
  destruct (Hwhole _ Hr1) as (z1 & Hz1), (Hwhole _ Hr2) as (z2 & Hz2).
  rewrite Hq1 in Hz1. rewrite Hq2 in Hz2. simplify_eq.
  rewrite int_Qc_of_Z in Hlo, Hhi. simplify_eq.
  pose proof (elem_of_nums _ _ _ _ Hr Hx) as Hin.
  rewrite Forall_forall in Hmin, Hmax.
  unfold in_quantities, ge_num_cell, le_num_cell. rewrite Hx. cbn [fst snd].
  rewrite !bool_decide_eq_true_2; [done|by apply Hmax|by apply Hmin].
Qed.

(** Each slider at its default leaves a view of the data as it is. *)
Lemma price_filter_at_default data fd pr :
  loaded data → view_of data fd →
  AppUpdated.default_price_range data = Ok (Some pr) →
  AppUpdated.price_filter fd pr = Ok fd.
Proof.
  intros Hloaded Hview Hpr.
  pose proof (view_of_loaded _ _ Hview Hloaded) as [Hcols _ Htyped].
  rewrite !Forall_cons in Hcols. destruct Hcols as (_ & Hprice & _).
  destruct pr as [lo hi]. rewrite price_filter_eq, decide_True by done.
  f_equal. apply where_all. rewrite Forall_forall in Htyped.
  apply Forall_forall. intros r Hr.
  eapply default_price_range_bounds; eauto using view_of_elem.
Qed.

Lemma quantity_filter_at_default data fd qr :
  loaded data → Forall whole_quantity (rows data) → view_of data fd →
  AppUpdated.default_quantity_range data = Ok qr →
  AppUpdated.quantity_filter fd qr = Ok fd.
Proof.
  intros Hloaded Hwhole Hview Hqr.
  pose proof (view_of_loaded _ _ Hview Hloaded) as [Hcols _ Htyped].
  rewrite !Forall_cons in Hcols. destruct Hcols as (_ & _ & Hqty & _).
  destruct qr as [lo hi]. rewrite quantity_filter_eq, decide_True by done.
  f_equal. apply where_all. rewrite Forall_forall in Htyped.
  apply Forall_forall. intros r Hr.
  eapply default_quantity_range_bounds; eauto using view_of_elem.
Qed.

Lemma filtered_data_at_defaults data w :
  loaded data → "Country" ∈ columns data → "ProductName" ∈ columns data →
  Forall whole_quantity (rows data) →
  AppUpdated.default_price_range data = Ok (Some (AppUpdated.price_range w)) →
  AppUpdated.default_quantity_range data = Ok (AppUpdated.quantity_range w) →
  ∃ fd, AppUpdated.basic_filters data w = Ok fd ∧ view_of data fd ∧
        AppUpdated.filtered_data data w = Ok fd.
Proof.
  intros Hloaded Hcountry Hproduct Hwhole Hpr Hqr.
  destruct (filtered_data_updated_total data w Hloaded Hcountry Hproduct)
    as (fd' & Hfd').
  unfold AppUpdated.filtered_data in *.
  apply bind_Ok in Hfd' as (fd & Hfd & _).
  pose proof (row_filter_view _ _ _ (basic_filters_row_filter w) Hfd) as Hview.
  exists fd. split; [done|]. split; [done|].
  rewrite Hfd. cbn [mbind result_bind].
  rewrite (price_filter_at_default data) by done. cbn [mbind result_bind].
  by apply (quantity_filter_at_default data).
Qed.

(** ** C1: the category selections *)

Lemma isin_cell_spec values c :
  isin_cell values c ↔ ∃ v, c = Some v ∧ v ∈ values.
Proof.
  destruct c as [v|]; simpl.
  - rewrite bool_decide_spec. split; [by exists v|by intros (? & [= ->] & ?)].
  - split; [done|]. by intros (? & ? & _).
Qed.

Lemma in_selection_spec sc sp (r : Row) :
  in_selection sc sp r ↔
  (∃ c, r !! "Country" = Some c ∧ c ∈ sc) ∧
  (∃ p, r !! "ProductName" = Some p ∧ p ∈ sp).
Proof. unfold in_selection. by rewrite andb_True, !isin_cell_spec. Qed.

Lemma options_complete data column sel r :
  App.options data column = Ok sel → Forall (λ r, complete (columns data) r) (rows data) →
  r ∈ rows data → isin_cell sel (r !! column).
Proof.
  unfold App.options. intros (s & [Hcol ->]%getitem_Ok & [= <-])%bind_Ok Hcomplete Hr.
  rewrite Forall_forall in Hcomplete.
  destruct (complete_lookup _ _ _ (Hcomplete _ Hr) Hcol) as [c Hc].
  apply isin_cell_spec. exists c. split; [done|].
  apply elem_of_unique, list_elem_of_omap. exists (Some c). split; [|done].
  apply list_elem_of_fmap. eauto.
Qed.

(** With the country selection emptied, [app.py] keeps no row of the
    example data, although both rows lie in the date range and carry a
    selected product. *)
Lemma empty_selection_keeps_nothing :
  App.load_data (Some example_csv) = Ok example_data ∧
  App.selected_country select_no_country = [] ∧
  date_filter example_data (App.date_range select_no_country) = Ok example_data ∧
  App.filtered_data example_data select_no_country =
    Ok (mkDF (columns example_data) []) ∧
  rows example_data ≠ [].
Proof. repeat split; [by_evaluation..|done]. Qed.

(** C1, amended. In [app.py] a row passes the category filter exactly when
    its Country is one of the selected countries and its ProductName one of
    the selected products.  So an empty selection keeps no row; it is the
    default selection, every value of the column in the loaded data, that
    imposes no restriction.  In [app_updated.py] the default choice "All"
    imposes none either. *)
Theorem category_filter_membership data w :
  loaded data → "Country" ∈ columns data → "ProductName" ∈ columns data →
  ∃ fd v,
    date_filter data (App.date_range w) = Ok fd ∧
    App.filtered_data data w = Ok v ∧
    columns v = columns fd ∧
    rows v = filter (λ r, in_selection (App.selected_country w)
                                       (App.selected_product w) r) (rows fd) ∧
    (∀ r, r ∈ rows v ↔
          r ∈ rows fd ∧
          (∃ c, r !! "Country" = Some c ∧ c ∈ App.selected_country w) ∧
          (∃ p, r !! "ProductName" = Some p ∧ p ∈ App.selected_product w)) ∧
    (App.selected_country w = [] ∨ App.selected_product w = [] → rows v = []) ∧
    (App.options data "Country" = Ok (App.selected_country w) →
     App.options data "ProductName" = Ok (App.selected_product w) → v = fd) ∧
    (∀ column, AppUpdated.selectbox_filter fd column (Str "All") = Ok fd).
Proof.
  intros Hloaded Hcountry Hproduct.
  destruct (filtered_data_total data w Hloaded Hcountry Hproduct) as (v & Hv).
  pose proof Hv as Hv'. unfold App.filtered_data in Hv'.
  apply bind_Ok in Hv' as (fd & Hfd & Hcat).
  pose proof (row_filter_view _ _ _ (date_filter_row_filter _) Hfd) as Hview.
  destruct (Hview) as [Hcols _].
  rewrite category_filter_eq, !decide_True in Hcat by (by rewrite Hcols).
  injection Hcat as <-.
  exists fd, (where_ fd (in_selection (App.selected_country w) (App.selected_product w))).
  do 4 (split; [done|]). split; [|split; [|split]].
  - intros r. cbn [where_ rows]. rewrite list_elem_of_filter, in_selection_spec.
    tauto.
  - intros Hempty. apply filter_none, Forall_forall.
    intros r _ [(c & _ & Hc) (p & _ & Hp)]%in_selection_spec.
    destruct Hempty as [He|He]; rewrite He in *; by eapply not_elem_of_nil.
  - intros Hc Hp. apply where_all, Forall_forall. intros r Hr.
    destruct Hloaded as [_ Hcomplete _]. apply andb_True.
    split; eapply options_complete; eauto using view_of_elem.
  - intros column. by rewrite selectbox_filter_eq.
Qed.

Lemma category_filter_membership_witness :
  ∃ fd v,
    date_filter example_data (App.date_range select_all) = Ok fd ∧
    App.filtered_data example_data select_all = Ok v ∧ v = fd.
Proof.
  destruct (category_filter_membership example_data select_all)
    as (fd & v & Hfd & Hv & _ & _ & _ & _ & Hall & _).
  - eapply load_data_loaded, example_load.
  - by_evaluation.
  - by_evaluation.
  - exists fd, v. split; [done|]. split; [done|]. apply Hall; by_evaluation.
Defined.

(** ** C2: the top products *)

(** The groups that [groupby] forms. *)
Section groups.
Context {K : Type} `{EqDecision K} (leb : K → K → bool).

Lemma groupby_sum_keys by_ values :
  (groupby_sum leb by_ values).*1 ≡ₚ unique (omap id by_).
Proof.
  unfold groupby_sum. rewrite <-list_fmap_compose.
  change (fst ∘ _) with (@id K). by rewrite list_fmap_id, insertion_sort_perm.
Qed.

Lemma groupby_sum_length by_ values :
  length (groupby_sum leb by_ values) = length (unique (omap id by_)).
Proof.
  rewrite <-(length_fmap fst). apply Permutation_length, groupby_sum_keys.
Qed.

Lemma groupby_sum_NoDup by_ values : NoDup (groupby_sum leb by_ values).*1.
Proof. rewrite groupby_sum_keys. apply NoDup_unique. Qed.

Lemma groupby_sum_elem by_ values k s :
  (k, s) ∈ groupby_sum leb by_ values ↔
  Some k ∈ by_ ∧
  s = series_sum (select values ((λ c, bool_decide (c = Some k)) <$> by_)).
Proof.
  unfold groupby_sum. rewrite list_elem_of_fmap. split.
  - intros (k' & [= <- ->] & Hk). split; [|done].
    rewrite insertion_sort_perm in Hk.
    apply elem_of_unique, list_elem_of_omap in Hk as (c & Hc & Hid).
    unfold id in Hid. by subst c.
  - intros [Hk ->]. exists k. split; [done|].
    rewrite insertion_sort_perm. apply elem_of_unique, list_elem_of_omap.
    by exists (Some k).
Qed.
End groups.

Lemma groupby_sales_eq fd by_ :
  by_ ∈ columns fd → "Sales" ∈ columns fd →
  groupby_sales fd by_ =
    Ok (groupby_sum cell_leb ((λ r : Row, r !! by_) <$> rows fd)
                             ((λ r : Row, r !! "Sales") <$> rows fd)).
Proof.
  intros Hby Hsales. unfold groupby_sales.
  rewrite (getitem_in _ by_) by done. cbn [mbind result_bind].
  by rewrite (getitem_in _ "Sales") by done.
Qed.




(** ** C3: exporting and loading again *)

Lemma digit_char_not_slash d : digit_char d ≠ "/"%char.
Proof.
  unfold digit_char. intros Heq. apply (f_equal nat_of_ascii) in Heq.
  assert (d mod 10 < 10) by (apply Nat.mod_upper_bound; lia).
  rewrite nat_ascii_embedding in Heq by lia.
  change (nat_of_ascii "/") with 47 in Heq. lia.
Qed.

(** The ISO text of a timestamp never matches '%m/%d/%Y': it has no slash. *)
Lemma strptime_strftime t : strptime (strftime t) = None.
Proof.
  unfold strptime, strftime.
  assert (cut "/" (String (digit_char (year t / 1000))
    (String (digit_char (year t / 100)) (String (digit_char (year t / 10))
    (String (digit_char (year t)) (String "-" (String (digit_char (month t / 10))
    (String (digit_char (month t)) (String "-" (String (digit_char (day t / 10))
    (String (digit_char (day t)) EmptyString)))))))))) = None) as ->; [|done].
  cbn [cut]. rewrite !decide_False by (apply digit_char_not_slash || done).
  done.
Qed.

Lemma to_csv_lookup (r : Row) name : (to_csv_cell <$> r) !! name = to_csv_cell <$> r !! name.
Proof. apply lookup_fmap. Qed.

Lemma to_csv_complete cols (r : Row) :
  complete cols r → complete cols (to_csv_cell <$> r).
Proof.
  intros Hr. apply complete_intro. intros c Hc. rewrite to_csv_lookup.
  apply fmap_is_Some. by eapply complete_lookup.
Qed.

Lemma to_csv_nums (rs : list Row) name :
  nums ((λ r : Row, r !! name) <$> ((λ r : Row, to_csv_cell <$> r) <$> rs)) =
  nums ((λ r : Row, r !! name) <$> rs).
Proof.
  unfold nums. induction rs as [|r rs IH]; [done|].
  cbn [fmap list_fmap omap list_omap]. rewrite to_csv_lookup.
  cbn [fmap list_fmap] in IH. rewrite IH.
  by destruct (r !! name) as [[]|].
Qed.

Lemma dropna_to_csv fd :
  Forall (λ r, complete (columns fd) r) (rows fd) → dropna (to_csv fd) = to_csv fd.
Proof.
  intros Hcomplete. unfold dropna, to_csv. cbn [columns rows]. f_equal.
  apply filter_all. rewrite Forall_fmap.
  eapply Forall_impl; [exact Hcomplete|]. intros r. apply to_csv_complete.
Qed.

Lemma reload_nonempty fd :
  loaded fd → rows fd ≠ [] →
  App.load_data (Some (convert_to_csv fd)) = Raise ValueError.
Proof.
  intros [Hcols Hcomplete Htyped] Hrows.
  rewrite !Forall_cons in Hcols. destruct Hcols as (Hdate & _).
  unfold App.load_data, convert_to_csv, read_csv. cbn [mbind result_bind].
  rewrite dropna_to_csv by done.
  rewrite (getitem_in _ "Date") by done. cbn [mbind result_bind].
  destruct (rows fd) as [|r rs] eqn:Hfd; [done|].
  apply Forall_cons in Htyped as [(t & p & q & Ht & _) _].
  unfold to_datetime, to_csv. cbn [rows]. rewrite Hfd. cbn [fmap list_fmap].
  rewrite (mapM_Raise_hd _ _ _ ValueError); [done|].
  rewrite to_csv_lookup, Ht.
  change (to_datetime_cell (Some (Str (strftime t))) = Raise ValueError).
  unfold to_datetime_cell. by rewrite strptime_strftime.
Qed.

Lemma reload_empty fd :
  loaded fd → rows fd = [] → App.load_data (Some (convert_to_csv fd)) = Ok fd.
Proof.
  intros [Hcols _ _] Hrows.
  rewrite !Forall_cons in Hcols. destruct Hcols as (Hdate & Hprice & Hqty & Hsales & _).
  destruct fd as [cols rs]. cbn in *. subst rs.
  unfold App.load_data, convert_to_csv, read_csv, getitem, dropna, to_csv, setitem.
  cbn. destruct (decide ("Date" ∈ cols)); [|done]. cbn.
  destruct (decide ("Price" ∈ cols)); [|done]. cbn.
  destruct (decide ("Quantity" ∈ cols)); [|done]. cbn.
  by destruct (decide ("Sales" ∈ cols)).
Qed.

(** The example data are a filtered view (everything selected), and
    [load_data] of either script rejects their export. *)
Lemma reload_of_export_fails :
  App.load_data (Some example_csv) = Ok example_data ∧
  App.filtered_data example_data select_all = Ok example_data ∧
  App.load_data (Some (convert_to_csv example_data)) = Raise ValueError ∧
  AppUpdated.load_data (Some (convert_to_csv example_data)) = ([], Raise ValueError).
Proof. repeat split; by_evaluation. Qed.

(** C3, amended. For every filtered view, the exported CSV has the header
    of the view, one line per row and the same Sales sum as the view.  Its
    dates are written year-month-day, which [load_data] does not accept:
    loading the export again raises [ValueError] in [app.py], and yields no
    dataset in [app_updated.py] either, as soon as the view has a row; only
    the export of a view without rows loads, into that same view. *)
Theorem export_keeps_count_and_sum (fd : DataFrame) :
  filtered_view fd →
  columns (convert_to_csv fd) = columns fd ∧
  len (convert_to_csv fd) = len fd ∧
  total_sales (convert_to_csv fd) = total_sales fd ∧
  (rows fd ≠ [] →
     App.load_data (Some (convert_to_csv fd)) = Raise ValueError ∧
     ∀ page data, AppUpdated.load_data (Some (convert_to_csv fd)) ≠ (page, Ok data)) ∧
  (rows fd = [] → App.load_data (Some (convert_to_csv fd)) = Ok fd).
Proof.
  intros (data & Hloaded & Hview)%filtered_view_loaded.
  pose proof (view_of_loaded _ _ Hview Hloaded) as Hfd.
  split; [done|]. split; [|split; [|split]].
  - unfold len, convert_to_csv, to_csv. cbn [rows]. by rewrite length_fmap.
  - unfold total_sales, getitem, convert_to_csv, to_csv. cbn [columns rows].
    destruct (decide _); [|done]. cbn [fmap result_fmap]. unfold series_sum.
    by rewrite to_csv_nums.
  - intros Hrows. pose proof (reload_nonempty fd Hfd Hrows) as Hre.
    split; [done|]. intros page data' (Hload & _)%load_data_updated_Ok.
    by rewrite Hre in Hload.
  - by apply reload_empty.
Qed.

Lemma export_keeps_count_and_sum_witness :
  filtered_view example_data ∧
  len (convert_to_csv example_data) = len example_data ∧
  total_sales (convert_to_csv example_data) = total_sales example_data ∧
  App.load_data (Some (convert_to_csv example_data)) = Raise ValueError.
Proof.
  assert (filtered_view example_data) as Hview.
  { left. exists (Some example_csv), example_data, select_all.
    split; by_evaluation. }
  destruct (export_keeps_count_and_sum example_data Hview)
    as (_ & Hlen & Hsum & Hre & _).
  split; [done|]. split; [done|]. split; [done|]. by apply Hre.
Defined.

(** ** C4: the Total Sales metric *)




(** ** C5: a file without a required column *)

(** [app_updated.py]: when a required column is absent, [load_data] shows
    its error and stops the script; no filter runs and nothing else is
    shown. *)
Lemma load_data_updated_missing `{SortValues} csv w :
  ¬ Forall (λ c, c ∈ columns csv) AppUpdated.required_columns →
  AppUpdated.load_data (Some csv) =
    ([st_error "The dataset is missing required columns."], Raise StopException) ∧
  AppUpdated.main (Some csv) w =
    ([st_error "The dataset is missing required columns."], Raise StopException).
Proof.
  intros Hmissing.
  assert (AppUpdated.load_data (Some csv) =
    ([st_error "The dataset is missing required columns."], Raise StopException))
    as Hload.
  { rewrite load_data_updated.
    destruct (forallb _ _) eqn:Hreq; [|done]. destruct Hmissing.
    apply Is_true_true_2, forallb_True in Hreq.
    eapply Forall_impl; [exact Hreq|]. by intros c ?%bool_decide_unpack. }
  split; [done|]. unfold AppUpdated.main. by rewrite Hload.
Qed.

(** [app.py]: only the columns that [load_data] itself reads are missed
    there, as a [KeyError]. *)
Lemma load_data_missing csv :
  "Date" ∉ columns csv → App.load_data (Some csv) = Raise (KeyError "Date").
Proof.
  intros Hdate. unfold App.load_data, read_csv. cbn [mbind result_bind].
  by rewrite (getitem_not_in _ "Date").
Qed.

(** C5. On a file that lacks the Country column, [load_data] of [app.py]
    does not fail: it returns the cleaned data.  The script goes on to show
    the header and the date picker and to filter by date, and only then
    ends with [KeyError] on Country.  [app_updated.py] stops in
    [load_data], having shown its error message only. *)
Theorem load_without_country :
  ¬ Forall (λ c, c ∈ columns csv_without_country) AppUpdated.required_columns ∧
  App.load_data (Some csv_without_country) =
    Ok (mkDF ["Date"; "Price"; "Quantity"; "ProductName"; "Sales"]
             [delete "Country" (data_row (mkTs 2023 1 1) 10 2 "US" "Widget")]) ∧
  App.main (Some csv_without_country) select_all =
    ([st_markdown "Sales Dashboard"; st_markdown "Filters";
      st_input "Select Date Range"], Raise (KeyError "Country")) ∧
  AppUpdated.main (Some csv_without_country) select_all_updated =
    ([st_error "The dataset is missing required columns."], Raise StopException).
Proof. repeat split; by_evaluation. Qed.

(** ** C6: the date range *)

Lemma ts_leb_refl t : ts_leb t t = true.
Proof.
  unfold ts_leb. rewrite !Nat.eqb_refl, Nat.leb_refl. cbn.
  by rewrite !orb_true_r.
Qed.

Lemma in_dates_spec start stop (r : Row) :
  in_dates start stop r ↔
  ∃ d, r !! "Date" = Some (Ts d) ∧ ts_leb start d = true ∧ ts_leb d stop = true.
Proof.
  unfold in_dates, ge_ts_cell, le_ts_cell. rewrite andb_True.
  destruct (r !! "Date") as [[x|s|d]|]; split; try (by intros [[] _]);
    try (by intros (? & [=] & _)).
  - intros [H1 H2]. exists d. by rewrite !Is_true_true in H1, H2.
  - intros (d' & [= <-] & H1 & H2). by rewrite H1, H2.
Qed.

(** C6. A date range that does not hold exactly two endpoints (so any with
    fewer than two) is no date filter: the data pass unchanged and nothing
    is raised.  With two endpoints the result keeps, in their order, the
    rows whose Date lies between them, both ends included. *)
Theorem date_filter_interval (data : DataFrame) (date_range : list Timestamp) :
  (length date_range ≠ 2 → date_filter data date_range = Ok data) ∧
  (∀ start stop, date_range = [start; stop] → "Date" ∈ columns data →
     ∃ fd, date_filter data date_range = Ok fd ∧
           columns fd = columns data ∧
           rows fd = filter (λ r, in_dates start stop r) (rows data) ∧
           ∀ r, r ∈ rows fd ↔
                r ∈ rows data ∧
                ∃ d, r !! "Date" = Some (Ts d) ∧
                     ts_leb start d = true ∧ ts_leb d stop = true).
Proof.
  split.
  - intros Hlen. rewrite date_filter_eq.
    by destruct date_range as [|? [|? [|]]].
  - intros start stop -> Hdate. rewrite date_filter_eq, decide_True by done.
    eexists. split; [done|]. split; [done|]. split; [done|].
    intros r. cbn [where_ rows]. rewrite list_elem_of_filter, in_dates_spec. tauto.
Qed.

Lemma date_filter_interval_witness :
  date_filter example_data [mkTs 2023 1 1] = Ok example_data ∧
  ∃ fd, date_filter example_data [mkTs 2023 1 1; mkTs 2023 1 31] = Ok fd ∧
        rows fd = [data_row (mkTs 2023 1 1) 10 2 "US" "Widget"].
Proof.
  split.
  - apply (date_filter_interval example_data [mkTs 2023 1 1]). simpl. lia.
  - destruct (date_filter_interval example_data [mkTs 2023 1 1; mkTs 2023 1 31])
      as [_ Hin].
    destruct (Hin _ _ eq_refl) as (fd & Hfd & _ & Hrows & _); [by_evaluation|].
    exists fd. split; [done|]. rewrite Hrows. by_evaluation.
Defined.

(** ** C7: filtering twice *)

(** C7. Filtering an already filtered frame again with the same widget
    state changes nothing: the same rows come back in the same order.
    This holds for the filter chain of either script. *)
Theorem filtered_data_idempotent :
  (∀ d c v, App.filtered_data d c = Ok v → App.filtered_data v c = Ok v) ∧
  (∀ d c v, AppUpdated.filtered_data d c = Ok v →
            AppUpdated.filtered_data v c = Ok v).
Proof.
  split; intros d c v.
  - apply (row_filter_idemp _ _ _ (filtered_data_row_filter c)).
  - apply (row_filter_idemp _ _ _ (filtered_data_updated_row_filter c)).
Qed.

Lemma filtered_data_idempotent_witness :
  (∃ v, App.filtered_data example_data select_US = Ok v ∧
        App.filtered_data v select_US = Ok v) ∧
  (∃ v, AppUpdated.filtered_data example_data select_all_updated = Ok v ∧
        AppUpdated.filtered_data v select_all_updated = Ok v).
Proof.
  split.
  - eexists. split; [exact example_filtered_US|].
    exact (proj1 filtered_data_idempotent _ _ _ example_filtered_US).
  - eexists. split; [exact example_filtered_updated|].
    exact (proj2 filtered_data_idempotent _ _ _ example_filtered_updated).
Defined.

(** ** C8: the two scripts side by side *)

Lemma isin_cell_singleton v c : isin_cell [v] c = eq_cell_at v c.
Proof.
  unfold isin_cell, eq_cell_at. destruct c as [x|].
  - apply bool_decide_ext. rewrite list_elem_of_singleton. naive_solver.
  - by rewrite bool_decide_eq_false_2.
Qed.

Lemma same_selection_rows data column multi single (r : Row) :
  same_selection data column multi single →
  Forall (λ r, complete (columns data) r) (rows data) → r ∈ rows data →
  isin_cell multi (r !! column) =
    if decide (single = Str "All") then true else eq_cell_at single (r !! column).
Proof.
  intros [[-> Hopt]|[Hne ->]] Hcomplete Hr.
  - rewrite decide_True by done. apply Is_true_true.
    by eapply options_complete.
  - rewrite decide_False by done. apply isin_cell_singleton.
Qed.

Lemma basic_filters_same data wa wu :
  loaded data → "Country" ∈ columns data → "ProductName" ∈ columns data →
  App.date_range wa = AppUpdated.date_range wu →
  same_selection data "Country" (App.selected_country wa)
                 (AppUpdated.selected_country wu) →
  same_selection data "ProductName" (App.selected_product wa)
                 (AppUpdated.selected_product wu) →
  App.filtered_data data wa = AppUpdated.basic_filters data wu.
Proof.
  intros Hloaded Hcountry Hproduct Hdates Hsc Hsp.
  unfold App.filtered_data, AppUpdated.basic_filters. rewrite <-Hdates.
  destruct (date_filter data (App.date_range wa)) as [fd|e] eqn:Hfd; [|done].
  cbn [mbind result_bind].
  pose proof (row_filter_view _ _ _ (date_filter_row_filter _) Hfd) as Hview.
  destruct (Hview) as [Hcols _]. destruct Hloaded as [_ Hcomplete _].
  rewrite category_filter_eq, !decide_True by (by rewrite Hcols).
  rewrite (where_ext fd _ (λ r,
    (if decide (AppUpdated.selected_product wu = Str "All") then true
     else eq_cell_at (AppUpdated.selected_product wu) (r !! "ProductName")) &&
    (if decide (AppUpdated.selected_country wu = Str "All") then true
     else eq_cell_at (AppUpdated.selected_country wu) (r !! "Country")))).
  2:{ intros r Hr. unfold in_selection.
      rewrite (same_selection_rows data "Country" _ _ r Hsc),
              (same_selection_rows data "ProductName" _ _ r Hsp);
        eauto using view_of_elem.
      apply andb_comm. }
  rewrite selectbox_filter_eq.
  destruct (decide (AppUpdated.selected_country wu = Str "All")) as [Hc|Hc];
    cbn [mbind result_bind]; rewrite ?decide_True by (by rewrite Hcols);
    cbn [mbind result_bind]; rewrite selectbox_filter_eq;
    destruct (decide (AppUpdated.selected_product wu = Str "All")) as [Hp|Hp];
    cbn [where_ columns]; rewrite ?decide_True by (by rewrite Hcols);
    rewrite ?where_where; f_equal.
  - apply where_all, Forall_forall. done.
  - apply where_ext. intros r _. by rewrite andb_true_r.
Qed.

Lemma aggregates_total `{SortValues} fd :
  Forall (λ c, c ∈ columns fd) ["Date"; "Quantity"; "Sales"; "Country"; "ProductName"] →
  ∃ sales quantity line top by_country heat,
    total_sales fd = Ok sales ∧ total_quantity fd = Ok quantity ∧
    sales_over_time fd = Ok line ∧ top_products fd 10 = Ok top ∧
    sales_by_country fd = Ok by_country ∧ heatmap_data fd = Ok heat.
Proof.
  rewrite !Forall_cons. intros (Hd & Hq & Hs & Hc & Hp & _).
  unfold total_sales, total_quantity, sales_over_time, top_products,
    sales_by_country, heatmap_data.
  rewrite !groupby_sales_eq by done.
  rewrite (getitem_in _ "Sales"), (getitem_in _ "Quantity"),
    (getitem_in _ "Date") by done.
  cbn [mbind result_bind fmap result_fmap]. by repeat eexists.
Qed.

Lemma two_prices_same_tests (w : App.Widgets) :
  ∃ b : bool,
    App.filtered_data two_prices w =
      Ok (mkDF (columns two_prices) (if b then rows two_prices else [])).
Proof.
  unfold App.filtered_data. rewrite date_filter_eq.
  assert (∀ p q : Row → bool,
    p (data_row (mkTs 2023 1 1) 10 2 "US" "Widget") =
      p (data_row (mkTs 2023 1 1) 5 4 "US" "Widget") →
    q (data_row (mkTs 2023 1 1) 10 2 "US" "Widget") =
      q (data_row (mkTs 2023 1 1) 5 4 "US" "Widget") →
    ∃ b : bool, where_ (where_ two_prices p) q =
      mkDF (columns two_prices) (if b then rows two_prices else [])) as Hboth.
  { intros p q Hp Hq. rewrite where_where. unfold where_, two_prices.
    cbn [rows columns]. rewrite !filter_cons, filter_nil, <-Hp, <-Hq.
    destruct (q _ && p _); [by exists true|by exists false]. }
  assert (∀ sc sp,
    in_selection sc sp (data_row (mkTs 2023 1 1) 10 2 "US" "Widget") =
    in_selection sc sp (data_row (mkTs 2023 1 1) 5 4 "US" "Widget")) as Hsel.
  { done. }
  assert (∀ d0 d1,
    in_dates d0 d1 (data_row (mkTs 2023 1 1) 10 2 "US" "Widget") =
    in_dates d0 d1 (data_row (mkTs 2023 1 1) 5 4 "US" "Widget")) as Hdates.
  { done. }
  destruct (App.date_range w) as [|d0 [|d1 [|]]]; cbn [mbind result_bind];
    rewrite ?decide_True by by_evaluation; cbn [mbind result_bind];
    rewrite category_filter_eq; cbn [where_ columns];
    rewrite !decide_True by by_evaluation.
  1,2,4: destruct (Hboth (λ _, true) (in_selection (App.selected_country w)
           (App.selected_product w)) eq_refl (Hsel _ _)) as [b Hb];
         rewrite where_true in Hb; exists b; by rewrite <-Hb.
  destruct (Hboth (in_dates d0 d1) (in_selection (App.selected_country w)
    (App.selected_product w)) (Hdates _ _) (Hsel _ _)) as [b Hb].
  exists b. by rewrite <-Hb.
Qed.

(** Where the two scripts part.  Choosing the country called "All" keeps
    one row in [app.py] and both in [app_updated.py], which takes the word
    for its own "no filter" entry.  And the price slider of
    [app_updated.py] can keep one of two rows between which no widget of
    [app.py] can tell. *)
Lemma variants_differ :
  App.load_data (Some all_csv) = Ok all_data ∧
  AppUpdated.load_data (Some all_csv) = ([], Ok all_data) ∧
  App.load_data (Some two_prices_csv) = Ok two_prices ∧
  AppUpdated.load_data (Some two_prices_csv) = ([], Ok two_prices) ∧
  App.filtered_data all_data select_country_All =
    Ok (mkDF (columns all_data) [data_row (mkTs 2023 1 1) 10 2 "All" "Widget"]) ∧
  AppUpdated.filtered_data all_data select_all_updated = Ok all_data ∧
  AppUpdated.filtered_data two_prices select_price_10 =
    Ok (mkDF (columns two_prices) [data_row (mkTs 2023 1 1) 10 2 "US" "Widget"]) ∧
  ¬ ∃ w, App.filtered_data two_prices w =
           AppUpdated.filtered_data two_prices select_price_10.
Proof.
  do 6 (split; [by_evaluation|]).
  assert (AppUpdated.filtered_data two_prices select_price_10 =
    Ok (mkDF (columns two_prices) [data_row (mkTs 2023 1 1) 10 2 "US" "Widget"]))
    as Hupdated by by_evaluation.
  split; [done|]. intros [w Hw]. rewrite Hupdated in Hw.
  destruct (two_prices_same_tests w) as [[] Hb]; rewrite Hb in Hw;
    by injection Hw.
Qed.

(** C8, amended. Take a file that [app_updated.py] loads, with whole
    quantities; the same date range in both scripts; for Country and for
    ProductName either everything ([app.py]: all values selected,
    [app_updated.py]: "All") or one and the same value other than the word
    "All"; and the two sliders of [app_updated.py] at their defaults, each
    with its lower end below its upper end (the data hold at least two
    prices and two quantities, so that the sliders can be drawn).  Then
    both scripts load the same data and compute the same filtered frame,
    and from it, by the expressions they share, the metrics and the data
    of the bar charts and the heatmap.  [app_updated.py] has in addition
    the two range filters, for which [app.py] has no counterpart. *)
Theorem variants_agree `{SortValues} file page data wa wu :
  AppUpdated.load_data file = (page, Ok data) →
  Forall whole_quantity (rows data) →
  App.date_range wa = AppUpdated.date_range wu →
  same_selection data "Country" (App.selected_country wa)
                 (AppUpdated.selected_country wu) →
  same_selection data "ProductName" (App.selected_product wa)
                 (AppUpdated.selected_product wu) →
  AppUpdated.default_price_range data = Ok (Some (AppUpdated.price_range wu)) →
  AppUpdated.default_quantity_range data = Ok (AppUpdated.quantity_range wu) →
  ((AppUpdated.price_range wu).1 < (AppUpdated.price_range wu).2)%Qc →
  ((AppUpdated.quantity_range wu).1 < (AppUpdated.quantity_range wu).2)%Z →
  App.load_data file = Ok data ∧
  ∃ fd sales quantity top by_country heat,
    App.filtered_data data wa = Ok fd ∧
    AppUpdated.filtered_data data wu = Ok fd ∧
    total_sales fd = Ok sales ∧ total_quantity fd = Ok quantity ∧
    top_products fd 10 = Ok top ∧ sales_by_country fd = Ok by_country ∧
    heatmap_data fd = Ok heat.
Proof.
  intros Hupd Hwhole Hdates Hsc Hsp Hpr Hqr _ _.
  apply load_data_updated_Ok in Hupd as Hload. destruct Hload as (Hload & -> & Hreq).
  pose proof (load_data_loaded _ _ Hload) as Hloaded.
  unfold AppUpdated.required_columns in Hreq. rewrite !Forall_cons in Hreq.
  destruct Hreq as (_ & _ & _ & Hcountry & Hproduct & _).
  destruct (filtered_data_at_defaults data wu) as (fd & Hbasic & _ & Hfd);
    try done.
  assert (App.filtered_data data wa = Ok fd) as Hfd'.
  { by rewrite (basic_filters_same data wa wu). }
  pose proof (row_filter_view _ _ _ (filtered_data_row_filter wa) Hfd') as Hview.
  pose proof (view_of_loaded _ _ Hview Hloaded) as [Hcols _ _].
  rewrite !Forall_cons in Hcols. destruct Hcols as (Hd & _ & Hq & Hs & _).
  destruct (aggregates_total fd)
    as (sales & quantity & line & top & by_country & heat &
        Hts & Htq & Hl & Htop & Hbc & Hh).
  { destruct Hview as [Hsame _]. rewrite !Forall_cons, Forall_nil.
    rewrite <-Hsame in Hcountry, Hproduct. tauto. }
  split; [done|]. by exists fd, sales, quantity, top, by_country, heat.
Qed.

Lemma variants_agree_witness :
  App.load_data (Some example_csv) = Ok example_data ∧
  ∃ fd sales quantity top by_country heat,
    App.filtered_data example_data select_all = Ok fd ∧
    AppUpdated.filtered_data example_data select_all_updated = Ok fd ∧
    total_sales fd = Ok sales ∧ total_quantity fd = Ok quantity ∧
    top_products fd 10 = Ok top ∧ sales_by_country fd = Ok by_country ∧
    heatmap_data fd = Ok heat.
Proof.
  apply (variants_agree (Some example_csv) [] example_data).
  - by_evaluation.
  - repeat constructor; [by exists 2%Z|by exists 4%Z].
  - done.
  - left. split; [done|by_evaluation].
  - left. split; [done|by_evaluation].
  - by_evaluation.
  - by_evaluation.
  - by_evaluation.
  - by vm_compute.
Defined.

(** ** C9: rows of a filtered view *)




(** ** C10: the sliders at their defaults *)



(** Whole quantities are what makes the default quantity range the column's
    [min, max]: [int] truncates, so on a half and two and a half the
    slider starts at (0, 2) and the filter leaves the second row out. *)
Lemma default_quantity_range_truncates :
  AppUpdated.default_quantity_range fractional_data = Ok (0, 2)%Z ∧
  AppUpdated.quantity_filter fractional_data (0, 2)%Z =
    Ok (mkDF (columns fractional_data)
             [fractional_sale (mkTs 2023 1 1) (Q2Qc (1 # 2))]).
Proof. split; by_evaluation. Qed.

(** * Further properties of the scripts *)

(** ** Sums *)

Lemma Qsum_perm l k : l ≡ₚ k → Qsum l = Qsum k.
Proof.
  induction 1 as [|x l k _ IH|x y l|l k m _ IH1 _ IH2]; simpl.
  - done.
  - by rewrite IH.
  - ring.
  - by rewrite IH1.
Qed.

Lemma Qsum_cons x l : Qsum (x :: l) = (x + Qsum l)%Qc.
Proof. done. Qed.

Lemma Qsum_zeros {A} (l : list A) : Qsum ((λ _, 0%Qc) <$> l) = 0%Qc.
Proof.
  induction l as [|x l IH]; [done|]. rewrite fmap_cons, Qsum_cons, IH. ring.
Qed.

Lemma Qsum_indicator {A} `{EqDecision A} (ks : list A) k0 x :
  NoDup ks → k0 ∈ ks →
  Qsum ((λ k, if decide (k = k0) then x else 0%Qc) <$> ks) = x.
Proof.
  induction 1 as [|k ks Hk Hnd IH]; [by intros ?%elem_of_nil|].
  intros Hin. rewrite fmap_cons, Qsum_cons.
  destruct (decide (k = k0)) as [->|Hne].
  - erewrite (list_fmap_ext _ (λ _, 0%Qc)); [rewrite Qsum_zeros; ring|].
    intros i k Hik. simpl. destruct (decide (k = k0)) as [->|]; [|done].
    destruct Hk. by eapply list_elem_of_lookup_2.
  - apply elem_of_cons in Hin as [->|Hin]; [done|]. rewrite IH by done. ring.
Qed.

Lemma Qsum_plus {A} (f g : A → Qc) (l : list A) :
  Qsum ((λ k, f k + g k)%Qc <$> l) = (Qsum (f <$> l) + Qsum (g <$> l))%Qc.
Proof.
  induction l as [|x l IH]; [cbn; ring|].
  rewrite !fmap_cons, !Qsum_cons, IH. ring.
Qed.

(** The sums of the groups add up to the sum of the column, when every row
    has a key. *)
Lemma groupby_sum_total {K} `{EqDecision K} (by_ : list (option K)) values ks :
  NoDup ks → (∀ k, Some k ∈ by_ → k ∈ ks) → Forall is_Some by_ →
  length values = length by_ →
  Qsum ((λ k, series_sum (select values ((λ c, bool_decide (c = Some k)) <$> by_)))
          <$> ks) = series_sum values.
Proof.
  intros Hnd. revert values.
  induction by_ as [|c by_ IH]; intros values Hks Hsome Hlen.
  - destruct values; [|done]. simpl. apply Qsum_zeros.
  - destruct values as [|v values]; [done|].
    apply Forall_cons in Hsome as [[k0 ->] Hsome].
    set (x := match v with Some (Num y) => y | _ => 0%Qc end).
    assert (series_sum (v :: values) = (x + series_sum values)%Qc) as ->.
    { unfold series_sum, nums, x. cbn [omap list_omap].
      destruct v as [[]|]; simpl; ring. }
    rewrite <-(IH values); [|by intros; apply Hks; right|done|by simplify_eq/=].
    rewrite <-(Qsum_indicator ks k0 x Hnd) at 1 by (apply Hks; left).
    rewrite <-Qsum_plus. f_equal. apply list_fmap_ext. intros i k Hik.
    cbn [fmap list_fmap select].
    destruct (decide (k = k0)) as [->|Hne].
    + rewrite bool_decide_eq_true_2 by done.
      unfold series_sum, nums, x. cbn [omap list_omap].
      destruct v as [[]|]; simpl; ring.
    + rewrite bool_decide_eq_false_2 by congruence. ring.
Qed.

Lemma groupby_sum_adds_up {K} `{EqDecision K} (leb : K → K → bool) by_ values :
  Forall is_Some by_ → length values = length by_ →
  Qsum (groupby_sum leb by_ values).*2 = series_sum values.
Proof.
  intros Hsome Hlen. unfold groupby_sum. rewrite <-list_fmap_compose.
  apply (groupby_sum_total by_ values); [| |done|done].
  - rewrite insertion_sort_perm. apply NoDup_unique.
  - intros k Hk. rewrite insertion_sort_perm.
    apply elem_of_unique, list_elem_of_omap. by exists (Some k).
Qed.

(** ** What every filtered view has *)

Lemma filtered_view_columns fd :
  filtered_view fd →
  Forall (λ c, c ∈ columns fd)
    ["Date"; "Price"; "Quantity"; "Sales"; "Country"; "ProductName"].
Proof.
  intros Hfd.
  destruct (filtered_view_loaded _ Hfd) as (data0 & Hl & Hv).
  destruct (view_of_loaded _ _ Hv Hl) as [Hcols _ _].
  rewrite !Forall_cons in Hcols. destruct Hcols as (? & ? & ? & ? & _).
  assert ("Country" ∈ columns fd ∧ "ProductName" ∈ columns fd) as [??];
    [|by repeat constructor].
  destruct Hfd as [(file & data & w & Hload & Hf)
                  |(file & page & data & w & Hload & Hf)].
  - unfold App.filtered_data in Hf. apply bind_Ok in Hf as (fd0 & _ & Hf).
    rewrite category_filter_eq in Hf.
    destruct (decide ("Country" ∈ columns fd0)); [|done].
    destruct (decide ("ProductName" ∈ columns fd0)); [|done].
    by simplify_eq.
  - apply load_data_updated_Ok in Hload as (_ & _ & Hreq).
    destruct (row_filter_view _ _ _ (filtered_data_updated_row_filter w) Hf)
      as [-> _].
    unfold AppUpdated.required_columns in Hreq. rewrite !Forall_cons in Hreq.
    tauto.
Qed.

Lemma filtered_view_typed fd : filtered_view fd → Forall typed_row (rows fd).
Proof.
  intros (data & Hl & Hv)%filtered_view_loaded.
  by destruct (view_of_loaded _ _ Hv Hl).
Qed.

Lemma filtered_view_complete fd c r :
  filtered_view fd → c ∈ columns fd → r ∈ rows fd → is_Some (r !! c).
Proof.
  intros (data & Hl & Hv)%filtered_view_loaded Hc Hr.
  destruct (view_of_loaded _ _ Hv Hl) as [_ Hcomp _].
  rewrite Forall_forall in Hcomp. by eapply complete_lookup; [apply Hcomp|].
Qed.

Lemma total_sales_eq fd :
  "Sales" ∈ columns fd →
  total_sales fd = Ok (series_sum ((λ r : Row, r !! "Sales") <$> rows fd)).
Proof. intros Hs. unfold total_sales. by rewrite (getitem_in _ "Sales"). Qed.

(** The groups of a column of a frame, row by row. *)
Lemma groupby_rows_elem {K} `{EqDecision K} (leb : K → K → bool)
    (key : Row → option K) (rs : list Row) k s :
  (k, s) ∈ groupby_sum leb (key <$> rs) ((λ r : Row, r !! "Sales") <$> rs) ↔
  (∃ r, r ∈ rs ∧ key r = Some k) ∧
  s = series_sum ((λ r : Row, r !! "Sales") <$>
        filter (λ r : Row, key r = Some k) rs).
Proof.
  rewrite groupby_sum_elem, list_elem_of_fmap.
  rewrite <-list_fmap_compose.
  change ((λ c : option K, bool_decide (c = Some k)) ∘ key)
    with (λ r : Row, bool_decide (key r = Some k)).
  rewrite select_fmap_fmap.
  assert (filter (λ r : Row, bool_decide (key r = Some k)) rs =
          filter (λ r : Row, key r = Some k) rs) as ->.
  { apply list_filter_iff. intros r. by rewrite bool_decide_spec. }
  split; intros [(r & ? & ?) ->]; (split; [|done]); exists r; done.
Qed.

Lemma desc_trans : Transitive desc.
Proof. intros a b c Hab Hbc. unfold desc in *. by eapply Qcle_trans. Qed.

Lemma Sorted_NoDup_strict {A} (R : relation A) (l : list A) :
  Sorted R l → NoDup l → Sorted (λ a b, R a b ∧ a ≠ b) l.
Proof.
  induction 1 as [|x l Hs IH Hhd]; intros Hnd; [constructor|].
  apply NoDup_cons in Hnd as [Hx Hnd]. constructor; [by apply IH|].
  destruct Hhd as [|y l' Hxy]; constructor. split; [done|].
  intros ->. apply Hx. by left.
Qed.

Lemma pair_leb_total a b : pair_leb a b = false → pair_leb b a = true.
Proof.
  unfold pair_leb. rewrite orb_false_iff, andb_false_iff, orb_true_iff,
    andb_true_iff, !Nat.ltb_ge, !Nat.ltb_lt, !Nat.eqb_neq, !Nat.eqb_eq,
    Nat.leb_gt, Nat.leb_le. lia.
Qed.

Lemma pair_leb_strict (a b : nat * nat) :
  pair_leb a b = true → a ≠ b → a.1 < b.1 ∨ (a.1 = b.1 ∧ a.2 < b.2).
Proof.
  destruct a as [y m], b as [y' m']. unfold pair_leb. cbn [fst snd].
  rewrite orb_true_iff, andb_true_iff, Nat.ltb_lt, Nat.eqb_eq, Nat.leb_le.
  intros H Hne. destruct (decide (y = y' ∧ m = m')) as [[-> ->]|]; [done|lia].
Qed.

Lemma example_numeric : numeric_file example_csv.
Proof.
  intros r Hr _. cbn [rows example_csv] in Hr.
  apply elem_of_cons in Hr as [->|Hr];
    [|apply elem_of_cons in Hr as [->|Hr]; [|by apply elem_of_nil in Hr]].
  - split; [exists (Qc_of_Z 10)|exists (Qc_of_Z 2)]; by_evaluation.
  - split; [exists (Qc_of_Z 5)|exists (Qc_of_Z 4)]; by_evaluation.
Qed.

Lemma example_view : filtered_view example_data.
Proof.
  left. exists (Some example_csv), example_data, select_all.
  split; by_evaluation.
Qed.

(** ** The bar chart of the countries *)



(** ** The heatmap *)



(** ** The listed products against the others *)



(** ** The other two metrics *)

Lemma nums_quantity (rs : list Row) :
  Forall typed_row rs →
  ∃ quantities,
    Forall2 (λ (r : Row) q, r !! "Quantity" = Some (Num q)) rs quantities ∧
    nums ((λ r : Row, r !! "Quantity") <$> rs) = quantities.
Proof.
  induction 1 as [|r rs (t & p & q & _ & _ & Hq & _) _ (qs & Hall & Hnums)].
  - exists []. split; [constructor|done].
  - exists (q :: qs). split; [by constructor|].
    unfold nums in *. cbn [fmap list_fmap omap list_omap]. rewrite Hq. by f_equal.
Qed.



(** ** A view without rows *)

(** X5. When the filters leave no row, nothing raises: the three metrics
    are 0, the line chart, both bar charts and the heatmap get no data,
    and the export has no line. *)
Theorem aggregates_of_empty_view `{SortValues} (fd : DataFrame) (n : nat) :
  filtered_view fd → rows fd = [] →
  total_sales fd = Ok 0%Qc ∧
  total_transactions fd = 0 ∧
  total_quantity fd = Ok 0%Qc ∧
  sales_over_time fd = Ok [] ∧
  top_products fd n = Ok [] ∧
  sales_by_country fd = Ok [] ∧
  heatmap_data fd = Ok [] ∧
  rows (convert_to_csv fd) = [].
Proof.
  intros Hfd Hrows. pose proof (filtered_view_columns _ Hfd) as Hcols.
  rewrite !Forall_cons in Hcols.
  destruct Hcols as (Hd & _ & Hq & Hs & Hc & Hp & _).
  assert (sort_values_desc [] = []) as Hsort.
  { apply Permutation_nil_r, sort_values_perm. }
  unfold total_sales, total_quantity, total_transactions, len, sales_over_time,
    top_products, sales_by_country, heatmap_data, convert_to_csv, to_csv.
  rewrite !groupby_sales_eq by done.
  rewrite (getitem_in _ "Sales"), (getitem_in _ "Quantity"),
    (getitem_in _ "Date") by done.
  rewrite Hrows. cbn [mbind result_bind fmap result_fmap list_fmap rows].
  unfold groupby_sum. cbn [fmap list_fmap omap list_omap unique unique_acc
    insertion_sort foldr]. rewrite Hsort. unfold head. by rewrite take_nil.
Qed.

Lemma aggregates_of_empty_view_witness :
  filtered_view (mkDF (columns example_data) []) ∧
  rows (mkDF (columns example_data) []) = [] ∧
  total_sales (mkDF (columns example_data) []) = Ok 0%Qc ∧
  total_transactions (mkDF (columns example_data) []) = 0 ∧
  total_quantity (mkDF (columns example_data) []) = Ok 0%Qc ∧
  sales_over_time (mkDF (columns example_data) []) = Ok [] ∧
  top_products (mkDF (columns example_data) []) 10 = Ok [] ∧
  sales_by_country (mkDF (columns example_data) []) = Ok [] ∧
  heatmap_data (mkDF (columns example_data) []) = Ok [] ∧
  rows (convert_to_csv (mkDF (columns example_data) [])) = [].
Proof.
  assert (filtered_view (mkDF (columns example_data) [])) as Hview.
  { left. exists (Some example_csv), example_data, select_no_country.
    split; by_evaluation. }
  split; [exact Hview|]. split; [done|].
  by apply (aggregates_of_empty_view (mkDF (columns example_data) []) 10).
Defined.

(** ** From a loaded file to the charts *)

(** X6. Take a file whose Price and Quantity are numbers and which
    [load_data] loads with at least one row (for [app.py]: with a Country
    and a ProductName column; for [app_updated.py]: with two different
    prices and quantities, so that both sliders have their minimum below
    their maximum).  Then whatever the widgets hold, none of the filter
    expressions and none of the aggregate expressions raises: evaluated
    on the loaded data they give the filtered view, the sums of Sales and
    Quantity, and the data of the line chart, the two bar charts and the
    heatmap. *)
Theorem filters_and_aggregates_return `{SortValues} :
  (∀ csv data w,
      numeric_file csv → App.load_data (Some csv) = Ok data →
      rows data ≠ [] →
      "Country" ∈ columns data → "ProductName" ∈ columns data →
      ∃ fd sales quantity line top by_country heat,
        App.filtered_data data w = Ok fd ∧
        total_sales fd = Ok sales ∧ total_quantity fd = Ok quantity ∧
        sales_over_time fd = Ok line ∧ top_products fd 10 = Ok top ∧
        sales_by_country fd = Ok by_country ∧ heatmap_data fd = Ok heat) ∧
  (∀ csv page data w plo phi qlo qhi,
      numeric_file csv → AppUpdated.load_data (Some csv) = (page, Ok data) →
      AppUpdated.default_price_range data = Ok (Some (plo, phi)) →
      (plo < phi)%Qc →
      AppUpdated.default_quantity_range data = Ok (qlo, qhi) →
      (qlo < qhi)%Z →
      ∃ fd sales quantity line top by_country heat,
        AppUpdated.filtered_data data w = Ok fd ∧
        total_sales fd = Ok sales ∧ total_quantity fd = Ok quantity ∧
        sales_over_time fd = Ok line ∧ top_products fd 10 = Ok top ∧
        sales_by_country fd = Ok by_country ∧ heatmap_data fd = Ok heat).
Proof.
  split.
  - intros csv data w _ Hload _ Hc Hp.
    destruct (filtered_data_total data w) as [fd Hfd];
      [by eapply load_data_loaded|done..|].
    assert (filtered_view fd) as Hview by (left; eauto 6).
    pose proof (filtered_view_columns _ Hview) as Hcols.
    rewrite !Forall_cons in Hcols.
    destruct (aggregates_total fd) as (s & q & l & t & b & h & ?);
      [repeat constructor; tauto|].
    by exists fd, s, q, l, t, b, h.
  - intros csv page data w plo phi qlo qhi _ Hload _ _ _ _.
    pose proof (load_data_updated_Ok _ _ _ Hload) as (Hload' & _ & Hreq).
    unfold AppUpdated.required_columns in Hreq. rewrite !Forall_cons in Hreq.
    destruct (filtered_data_updated_total data w) as [fd Hfd];
      [by eapply load_data_loaded|tauto..|].
    assert (filtered_view fd) as Hview by (right; eauto 7).
    pose proof (filtered_view_columns _ Hview) as Hcols.
    rewrite !Forall_cons in Hcols.
    destruct (aggregates_total fd) as (s & q & l & t & b & h & ?);
      [repeat constructor; tauto|].
    by exists fd, s, q, l, t, b, h.
Qed.

Lemma filters_and_aggregates_return_witness :
  numeric_file example_csv ∧
  AppUpdated.load_data (Some example_csv) = ([], Ok example_data) ∧
  AppUpdated.default_price_range example_data =
    Ok (Some (Qc_of_Z 5, Qc_of_Z 10)) ∧
  (Qc_of_Z 5 < Qc_of_Z 10)%Qc ∧
  AppUpdated.default_quantity_range example_data = Ok (2, 4)%Z ∧
  (2 < 4)%Z ∧
  ∃ fd sales quantity line top by_country heat,
    AppUpdated.filtered_data example_data select_price_10 = Ok fd ∧
    total_sales fd = Ok sales ∧ total_quantity fd = Ok quantity ∧
    sales_over_time fd = Ok line ∧ top_products fd 10 = Ok top ∧
    sales_by_country fd = Ok by_country ∧ heatmap_data fd = Ok heat.
Proof.
  assert (AppUpdated.default_price_range example_data =
    Ok (Some (Qc_of_Z 5, Qc_of_Z 10))) as Hprice by by_evaluation.
  assert (Qc_of_Z 5 < Qc_of_Z 10)%Qc as Hplt by by_evaluation.
  assert (AppUpdated.default_quantity_range example_data = Ok (2, 4)%Z)
    as Hqty by by_evaluation.
  assert (2 < 4)%Z as Hqlt by lia.
  split; [exact example_numeric|]. split; [exact example_load_updated|].
  do 4 (split; [done|]).
  exact (proj2 filters_and_aggregates_return _ _ _ select_price_10 _ _ _ _
           example_numeric example_load_updated Hprice Hplt Hqty Hqlt).
Defined.

(** ** Loading *)

Lemma mapM_total {A B} (f : A → result B) l :
  Forall (λ x, ∃ y, f x = Ok y) l → ∃ k, mapM f l = Ok k.
Proof.
  induction 1 as [|x l [y Hy] _ [k Hk]]; [by exists []|].
  exists (y :: k). by rewrite mapM_cons, Hy, Hk.
Qed.

Lemma mapM_Raise_elem {A B} (f : A → result B) l x e0 :
  (∀ y e, f y = Raise e → e = e0) → x ∈ l → f x = Raise e0 →
  mapM f l = Raise e0.
Proof.
  intros Hone Hx Hfx. induction l as [|y l IH]; [by apply elem_of_nil in Hx|].
  rewrite mapM_cons. destruct (f y) as [z|e] eqn:Hy.
  - apply elem_of_cons in Hx as [->|Hx]; [congruence|]. by rewrite IH.
  - f_equal. by eapply Hone.
Qed.

Lemma to_datetime_cell_Raise c e : to_datetime_cell c = Raise e → e = ValueError.
Proof.
  destruct c as [[?|s|?]|]; simpl; try congruence.
  destruct (strptime s); congruence.
Qed.

Lemma set_cell_lookup_ne name (r : Row) c other :
  name ≠ other → set_cell name r c !! other = r !! other.
Proof.
  intros Hne. destruct c; simpl;
    [by rewrite lookup_insert_ne|by rewrite lookup_delete_ne].
Qed.





(** X9. [load_data] of [app.py] returns for every file that has the Date,
    Price and Quantity columns and in which every row without a missing
    value has a Date that reads as month/day/year and numbers for Price
    and Quantity; the data then have as many rows as the file has rows
    without a missing value.  With the five required columns,
    [load_data] of [app_updated.py] returns the same data and shows
    nothing. *)
Theorem load_data_returns (csv : DataFrame) :
  Forall (λ c, c ∈ columns csv) ["Date"; "Price"; "Quantity"] →
  (∀ r, r ∈ rows csv → complete (columns csv) r →
     (∃ s t, r !! "Date" = Some (Str s) ∧ strptime s = Some t) ∧
     (∃ p, r !! "Price" = Some (Num p)) ∧
     (∃ q, r !! "Quantity" = Some (Num q))) →
  ∃ data,
    App.load_data (Some csv) = Ok data ∧
    len data = length (filter (λ r, complete (columns csv) r) (rows csv)) ∧
    (Forall (λ c, c ∈ columns csv) AppUpdated.required_columns →
     AppUpdated.load_data (Some csv) = ([], Ok data)).
Proof.
  rewrite !Forall_cons. intros (Hdate & Hprice & Hqty & _) Hrows.
  assert (∃ data, App.load_data (Some csv) = Ok data) as [data Hload].
  { unfold App.load_data, read_csv. cbn [mbind result_bind].
    rewrite (getitem_in _ "Date") by done. cbn [mbind result_bind].
    destruct (mapM_total to_datetime_cell
                ((λ r : Row, r !! "Date") <$> rows (dropna csv))) as [date' Hparse].
    { apply Forall_fmap, Forall_forall.
      intros r [Hc Hr]%list_elem_of_filter.
      destruct (Hrows r Hr Hc) as ((s & t & Hs & Ht) & _).
      exists (Some (Ts t)). cbn beta. rewrite Hs. cbn [to_datetime_cell]. by rewrite Ht. }
    unfold to_datetime. rewrite Hparse. cbn [mbind result_bind].
    set (data1 := setitem (dropna csv) "Date" date').
    assert (columns data1 = columns csv) as Hcols.
    { unfold data1, setitem. cbn [columns dropna]. by rewrite decide_True. }
    rewrite (getitem_in _ "Price"), (getitem_in _ "Quantity")
      by (by rewrite Hcols).
    cbn [mbind result_bind]. unfold series_mul. rewrite zip_fmap_same.
    destruct (mapM_total mul_cell
                ((λ r : Row, (r !! "Price", r !! "Quantity")) <$> rows data1))
      as [sales Hsales]; [|rewrite Hsales; cbn [mbind result_bind]; eauto].
    apply Forall_fmap, Forall_forall. intros r1 Hr1.
    apply elem_of_zip_with in Hr1 as (r & c & -> & [Hc Hr]%list_elem_of_filter & _).
    destruct (Hrows r Hr Hc) as (_ & (p & Hp) & (q & Hq)).
    exists (Some (Num (p * q)%Qc)). simpl.
    by rewrite !set_cell_lookup_ne, Hp, Hq. }
  exists data. split; [done|].
  pose proof (load_data_rows _ _ Hload) as (_ & _ & Hall).
  split; [symmetry; apply (Forall2_length _ _ _ Hall)|].
  intros Hreq. rewrite load_data_updated, Hload.
  destruct (forallb _ _) eqn:Hb; [done|].
  apply not_true_iff_false in Hb. destruct Hb.
  apply Is_true_true_1, forallb_True.
  eapply Forall_impl; [exact Hreq|]. intros c Hc. by apply bool_decide_pack.
Qed.

Lemma load_data_returns_witness :
  Forall (λ c, c ∈ columns example_csv) ["Date"; "Price"; "Quantity"] ∧
  ∃ data,
    App.load_data (Some example_csv) = Ok data ∧
    len data =
      length (filter (λ r, complete (columns example_csv) r) (rows example_csv)) ∧
    (Forall (λ c, c ∈ columns example_csv) AppUpdated.required_columns →
     AppUpdated.load_data (Some example_csv) = ([], Ok data)).
Proof.
  assert (Forall (λ c, c ∈ columns example_csv) ["Date"; "Price"; "Quantity"])
    as Hcols by (repeat constructor; by_evaluation).
  split; [exact Hcols|].
  apply (load_data_returns example_csv Hcols).
  intros r Hr _. cbn [rows example_csv] in Hr.
  apply elem_of_cons in Hr as [->|Hr];
    [|apply elem_of_cons in Hr as [->|Hr]; [|by apply elem_of_nil in Hr]].
  - split; [exists "1/1/2023", (mkTs 2023 1 1); split; by_evaluation|].
    split; [exists (Qc_of_Z 10)|exists (Qc_of_Z 2)]; by_evaluation.
  - split; [exists "2/1/2023", (mkTs 2023 2 1); split; by_evaluation|].
    split; [exists (Qc_of_Z 5)|exists (Qc_of_Z 4)]; by_evaluation.
Defined.

(** ** Errors of loading *)

(** X10. What [load_data] of [app.py] does about a column it reads and
    the file lacks: a missing Date is a [KeyError] on Date; when the dates
    are there and parse, a missing Price is a [KeyError] on Price; and
    with these two in place, a missing Quantity is a [KeyError] on
    Quantity.  In each case the script ends there with nothing shown. *)
Theorem load_data_key_errors `{SortValues} (csv : DataFrame) :
  ("Date" ∉ columns csv →
     App.load_data (Some csv) = Raise (KeyError "Date") ∧
     ∀ w, App.main (Some csv) w = ([], Raise (KeyError "Date"))) ∧
  (∀ parsed,
     (getitem (dropna csv) "Date" ≫= to_datetime) = Ok parsed →
     "Price" ∉ columns csv →
     App.load_data (Some csv) = Raise (KeyError "Price") ∧
     ∀ w, App.main (Some csv) w = ([], Raise (KeyError "Price"))) ∧
  (∀ parsed,
     (getitem (dropna csv) "Date" ≫= to_datetime) = Ok parsed →
     "Price" ∈ columns csv → "Quantity" ∉ columns csv →
     App.load_data (Some csv) = Raise (KeyError "Quantity") ∧
     ∀ w, App.main (Some csv) w = ([], Raise (KeyError "Quantity"))).
Proof.
  assert (∀ k, App.load_data (Some csv) = Raise (KeyError k) →
    App.load_data (Some csv) = Raise (KeyError k) ∧
    ∀ w, App.main (Some csv) w = ([], Raise (KeyError k))) as Hmain.
  { intros k Hload. split; [done|]. intros w. unfold App.main.
    by rewrite Hload. }
  split; [|split].
  - intros Hdate. apply Hmain. unfold App.load_data, read_csv.
    cbn [mbind result_bind]. by rewrite (getitem_not_in _ "Date").
  - intros parsed Hparsed Hprice. apply Hmain.
    apply bind_Ok in Hparsed as (date & Hdate & Hparsed).
    pose proof Hdate as [Hin _]%getitem_Ok.
    unfold App.load_data, read_csv. cbn [mbind result_bind].
    rewrite Hdate. cbn [mbind result_bind]. rewrite Hparsed.
    cbn [mbind result_bind]. rewrite (getitem_not_in _ "Price"); [done|].
    unfold setitem. cbn [columns]. by rewrite decide_True.
  - intros parsed Hparsed Hprice Hqty. apply Hmain.
    apply bind_Ok in Hparsed as (date & Hdate & Hparsed).
    pose proof Hdate as [Hin _]%getitem_Ok.
    unfold App.load_data, read_csv. cbn [mbind result_bind].
    rewrite Hdate. cbn [mbind result_bind]. rewrite Hparsed.
    cbn [mbind result_bind].
    rewrite (getitem_in _ "Price")
      by (unfold setitem; cbn [columns]; by rewrite decide_True).
    cbn [mbind result_bind]. rewrite (getitem_not_in _ "Quantity"); [done|].
    unfold setitem. cbn [columns]. by rewrite decide_True.
Qed.

Lemma load_data_key_errors_witness :
  ∃ parsed,
    (getitem (dropna csv_without_price) "Date" ≫= to_datetime) = Ok parsed ∧
    ("Price" ∉ columns csv_without_price) ∧
    App.load_data (Some csv_without_price) = Raise (KeyError "Price") ∧
    ∀ w, App.main (Some csv_without_price) w = ([], Raise (KeyError "Price")).
Proof.
  assert ((getitem (dropna csv_without_price) "Date" ≫= to_datetime) =
          Ok [Some (Ts (mkTs 2023 1 1))]) as Hparsed by by_evaluation.
  assert ("Price" ∉ columns csv_without_price) as Hprice by by_evaluation.
  exists [Some (Ts (mkTs 2023 1 1))]. split; [exact Hparsed|].
  split; [exact Hprice|].
  exact (proj1 (proj2 (load_data_key_errors csv_without_price)) _ Hparsed Hprice).
Defined.

(** X11. [app_updated.py] checks the header before it reads a column: when
    any of Date, Price, Quantity, Country and ProductName is absent from
    the file, [load_data] shows "The dataset is missing required columns."
    and stops, and that message is all the script shows; no [KeyError] is
    raised.  And when [load_data] returns data, the five columns are in
    it, together with Sales. *)
Theorem required_columns_checked `{SortValues} (csv : DataFrame) :
  (∀ c, c ∈ AppUpdated.required_columns → c ∉ columns csv →
     AppUpdated.load_data (Some csv) =
       ([st_error "The dataset is missing required columns."],
        Raise StopException) ∧
     ∀ w, AppUpdated.main (Some csv) w =
       ([st_error "The dataset is missing required columns."],
        Raise StopException)) ∧
  (∀ page data, AppUpdated.load_data (Some csv) = (page, Ok data) →
     Forall (λ c, c ∈ columns data)
       ["Date"; "Price"; "Quantity"; "Country"; "ProductName"; "Sales"]).
Proof.
  split.
  - intros c Hc Hmissing.
    assert (¬ Forall (λ c, c ∈ columns csv) AppUpdated.required_columns) as Hnot.
    { rewrite Forall_forall. intros Hall. by apply Hmissing, Hall. }
    split; [|intros w; by apply load_data_updated_missing].
    by apply (load_data_updated_missing csv select_all_updated).
  - intros page data Hload.
    pose proof (load_data_updated_Ok _ _ _ Hload) as (Hload' & _ & Hreq).
    destruct (load_data_loaded _ _ Hload') as [Hcols _ _].
    unfold AppUpdated.required_columns in Hreq.
    rewrite !Forall_cons in Hreq. rewrite !Forall_cons in Hcols.
    repeat constructor; tauto.
Qed.

Lemma required_columns_checked_witness :
  "Country" ∈ AppUpdated.required_columns ∧
  ("Country" ∉ columns csv_without_country) ∧
  AppUpdated.load_data (Some csv_without_country) =
    ([st_error "The dataset is missing required columns."],
     Raise StopException) ∧
  ∀ w, AppUpdated.main (Some csv_without_country) w =
    ([st_error "The dataset is missing required columns."],
     Raise StopException).
Proof.
  assert ("Country" ∈ AppUpdated.required_columns) as H1 by by_evaluation.
  assert ("Country" ∉ columns csv_without_country) as H2 by by_evaluation.
  split; [exact H1|]. split; [exact H2|].
  exact (proj1 (required_columns_checked csv_without_country) _ H1 H2).
Defined.

(** X12. When the file is not there, [load_data] raises
    [FileNotFoundError] in both scripts; each script catches it, shows
    "File not found: Sales Transaction v.4a.csv" and stops: whatever the
    widgets hold, nothing else is shown and no other exception gets out. *)
Theorem file_not_found_stops `{SortValues} :
  App.load_data None = Raise FileNotFoundError ∧
  AppUpdated.load_data None = ([], Raise FileNotFoundError) ∧
  (∀ w, App.main None w =
     ([st_error "File not found: Sales Transaction v.4a.csv"],
      Raise StopException)) ∧
  (∀ w, AppUpdated.main None w =
     ([st_error "File not found: Sales Transaction v.4a.csv"],
      Raise StopException)).
Proof. by repeat split. Qed.

(** ** The filters of [app_updated.py] as one test *)

Lemma date_filter_where data (date_range : list Timestamp) :
  "Date" ∈ columns data →
  date_filter data date_range =
    Ok (where_ data (λ r, match date_range with
                          | [d0; d1] => in_dates d0 d1 r
                          | _ => true
                          end)).
Proof.
  intros Hdate. rewrite date_filter_eq.
  destruct date_range as [|d0 [|d1 [|]]]; rewrite ?where_true; try done.
  by rewrite decide_True.
Qed.

Lemma selectbox_filter_where fd column selected :
  column ∈ columns fd →
  AppUpdated.selectbox_filter fd column selected =
    Ok (where_ fd (selected_or_All selected column)).
Proof.
  intros Hcol. rewrite selectbox_filter_eq. unfold selected_or_All.
  destruct (decide (selected = Str "All")); [by rewrite where_true|].
  by rewrite decide_True.
Qed.

Lemma range_spec lo hi (c : option cell) :
  ge_num_cell lo c && le_num_cell hi c ↔
  ∃ x, c = Some (Num x) ∧ (lo ≤ x)%Qc ∧ (x ≤ hi)%Qc.
Proof.
  rewrite andb_True. destruct c as [[x|s|t]|]; simpl;
    try (split; [by intros [[] _]|by intros (? & [=] & _)]).
  rewrite !bool_decide_spec. split; [by exists x|].
  by intros (? & [= <-] & ?).
Qed.

Lemma selected_or_All_spec selected column (r : Row) :
  selected_or_All selected column r ↔
  selected = Str "All" ∨ r !! column = Some selected.
Proof.
  unfold selected_or_All, eq_cell_at.
  destruct (decide (selected = Str "All")) as [->|Hne]; [by split; [left|]|].
  rewrite bool_decide_spec. split; [by right|]. by intros [?|?].
Qed.

Lemma filtered_data_updated_where data w :
  Forall (λ c, c ∈ columns data)
    ["Date"; "Price"; "Quantity"; "Country"; "ProductName"] →
  AppUpdated.filtered_data data w = Ok (where_ data (passes_updated w)).
Proof.
  rewrite !Forall_cons. intros (Hd & Hp & Hq & Hc & Hn & _).
  unfold AppUpdated.filtered_data, AppUpdated.basic_filters.
  rewrite date_filter_where by done. cbn [mbind result_bind].
  rewrite selectbox_filter_where by done. cbn [mbind result_bind].
  rewrite selectbox_filter_where by done. cbn [mbind result_bind].
  rewrite price_filter_eq, decide_True by done. cbn [mbind result_bind].
  rewrite quantity_filter_eq, decide_True by done.
  rewrite !where_where. f_equal. apply where_ext. intros r _.
  unfold passes_updated.
  destruct (match AppUpdated.date_range w with [d0; d1] => in_dates d0 d1 r
            | _ => true end),
    (selected_or_All (AppUpdated.selected_country w) "Country" r),
    (selected_or_All (AppUpdated.selected_product w) "ProductName" r),
    (in_prices (AppUpdated.price_range w) r),
    (in_quantities (AppUpdated.quantity_range w) r); done.
Qed.

(** X13. In [app_updated.py] the five filters amount to one test applied
    to the loaded data: the filtered view has the rows, in their order,
    that pass all of them at once.  A row passes when its Date lies
    between the two endpoints, both included (a date range without two
    endpoints lets every row pass); its Country is the selected one, or
    "All" is selected; the same for its ProductName; and its Price and
    its Quantity lie within the slider ranges, both ends included. *)
Theorem updated_filters_conjunction file page data (w : AppUpdated.Widgets) :
  AppUpdated.load_data file = (page, Ok data) →
  AppUpdated.filtered_data data w = Ok (where_ data (passes_updated w)) ∧
  ∀ r : Row, passes_updated w r ↔
    match AppUpdated.date_range w with
    | [start; stop] =>
        ∃ d, r !! "Date" = Some (Ts d) ∧
             ts_leb start d = true ∧ ts_leb d stop = true
    | _ => True
    end ∧
    (AppUpdated.selected_country w = Str "All" ∨
     r !! "Country" = Some (AppUpdated.selected_country w)) ∧
    (AppUpdated.selected_product w = Str "All" ∨
     r !! "ProductName" = Some (AppUpdated.selected_product w)) ∧
    (∃ p, r !! "Price" = Some (Num p) ∧
          ((AppUpdated.price_range w).1 ≤ p)%Qc ∧
          (p ≤ (AppUpdated.price_range w).2)%Qc) ∧
    (∃ q, r !! "Quantity" = Some (Num q) ∧
          (Qc_of_Z (AppUpdated.quantity_range w).1 ≤ q)%Qc ∧
          (q ≤ Qc_of_Z (AppUpdated.quantity_range w).2)%Qc).
Proof.
  intros (Hload & _ & Hreq)%load_data_updated_Ok.
  split; [by apply filtered_data_updated_where|].
  intros r. unfold passes_updated. rewrite !andb_True.
  rewrite !selected_or_All_spec. unfold in_prices, in_quantities.
  rewrite !range_spec.
  destruct (AppUpdated.date_range w) as [|d0 [|d1 [|]]]; try tauto.
  rewrite in_dates_spec. tauto.
Qed.

Lemma updated_filters_conjunction_witness :
  AppUpdated.load_data (Some two_prices_csv) = ([], Ok two_prices) ∧
  AppUpdated.filtered_data two_prices select_price_10 =
    Ok (where_ two_prices (passes_updated select_price_10)) ∧
  rows (where_ two_prices (passes_updated select_price_10)) =
    [data_row (mkTs 2023 1 1) 10 2 "US" "Widget"].
Proof.
  assert (AppUpdated.load_data (Some two_prices_csv) = ([], Ok two_prices))
    as Hload by by_evaluation.
  split; [exact Hload|].
  split; [|by_evaluation].
  exact (proj1 (updated_filters_conjunction _ _ _ select_price_10 Hload)).
Defined.

(** ** The widgets as the page first shows them *)

Lemma ts_leb_spec a b :
  ts_leb a b = true ↔
  year a < year b ∨
  (year a = year b ∧
   (month a < month b ∨ (month a = month b ∧ day a ≤ day b))).
Proof.
  unfold ts_leb. repeat (rewrite orb_true_iff || rewrite andb_true_iff).
  by rewrite !Nat.ltb_lt, !Nat.eqb_eq, Nat.leb_le.
Qed.

Lemma ts_leb_total a b : ts_leb a b = false → ts_leb b a = true.
Proof. rewrite <-not_true_iff_false, !ts_leb_spec. lia. Qed.

Lemma ts_leb_trans a b c :
  ts_leb a b = true → ts_leb b c = true → ts_leb a c = true.
Proof. rewrite !ts_leb_spec. lia. Qed.

Lemma foldl_ts_min_le acc l :
  ts_leb (foldl ts_min acc l) acc = true ∧
  Forall (λ x, ts_leb (foldl ts_min acc l) x = true) l.
Proof.
  revert acc. induction l as [|x l IH]; intros acc; simpl.
  { split; [apply ts_leb_refl|constructor]. }
  destruct (IH (ts_min acc x)) as [Hacc Hall].
  assert (ts_leb (ts_min acc x) acc = true ∧ ts_leb (ts_min acc x) x = true)
    as [H1 H2].
  { unfold ts_min. destruct (ts_leb acc x) eqn:Hle.
    - by rewrite ts_leb_refl.
    - by rewrite ts_leb_refl, ts_leb_total. }
  split; [by eapply ts_leb_trans|]. constructor; [by eapply ts_leb_trans|done].
Qed.

Lemma foldl_ts_max_ge acc l :
  ts_leb acc (foldl ts_max acc l) = true ∧
  Forall (λ x, ts_leb x (foldl ts_max acc l) = true) l.
Proof.
  revert acc. induction l as [|x l IH]; intros acc; simpl.
  { split; [apply ts_leb_refl|constructor]. }
  destruct (IH (ts_max acc x)) as [Hacc Hall].
  assert (ts_leb acc (ts_max acc x) = true ∧ ts_leb x (ts_max acc x) = true)
    as [H1 H2].
  { unfold ts_max. destruct (ts_leb acc x) eqn:Hle.
    - by rewrite ts_leb_refl.
    - by rewrite ts_leb_refl, ts_leb_total. }
  split; [by eapply ts_leb_trans|]. constructor; [by eapply ts_leb_trans|done].
Qed.

Lemma elem_of_stamps (rs : list Row) r t :
  r ∈ rs → r !! "Date" = Some (Ts t) →
  t ∈ stamps ((λ r : Row, r !! "Date") <$> rs).
Proof.
  intros Hr Ht. unfold stamps. apply list_elem_of_omap.
  exists (Some (Ts t)). split; [|done]. apply list_elem_of_fmap. eauto.
Qed.

(** Every date of the data lies between the two that the date picker
    starts with. *)
Lemma default_date_range_bounds data lo hi r :
  default_date_range data = Ok (Some [lo; hi]) →
  r ∈ rows data → typed_row r → in_dates lo hi r.
Proof.
  unfold default_date_range.
  intros (d & [_ ->]%getitem_Ok & [= H])%bind_Ok Hr (t & p & q & Ht & _).
  pose proof (elem_of_stamps _ _ _ Hr Ht) as Hin.
  unfold date_min, date_max, reduce in H.
  destruct (stamps _) as [|t0 ts]; [done|]. cbn in H. simplify_eq.
  destruct (foldl_ts_min_le t0 ts) as [Hmin0 Hmin].
  destruct (foldl_ts_max_ge t0 ts) as [Hmax0 Hmax].
  rewrite Forall_forall in Hmin, Hmax.
  unfold in_dates, ge_ts_cell, le_ts_cell. rewrite Ht.
  apply elem_of_cons in Hin as [->|Hin].
  - by rewrite Hmin0, Hmax0.
  - by rewrite Hmin, Hmax.
Qed.

(** X14. With the widgets as the page first shows them, nothing is
    filtered out: the filtered view is the loaded data.  In [app.py] that
    is the date picker at the first and the last date of the data and
    both multiselects with every value of their column; in
    [app_updated.py] the same date picker, both select boxes at "All" and
    both sliders at the extremes of the data (the quantities being whole
    numbers). *)
Theorem untouched_widgets_show_everything :
  (∀ file data w,
      App.load_data file = Ok data →
      default_date_range data = Ok (Some (App.date_range w)) →
      App.options data "Country" = Ok (App.selected_country w) →
      App.options data "ProductName" = Ok (App.selected_product w) →
      App.filtered_data data w = Ok data) ∧
  (∀ file page data w,
      AppUpdated.load_data file = (page, Ok data) →
      Forall whole_quantity (rows data) →
      default_date_range data = Ok (Some (AppUpdated.date_range w)) →
      AppUpdated.selected_country w = Str "All" →
      AppUpdated.selected_product w = Str "All" →
      AppUpdated.default_price_range data = Ok (Some (AppUpdated.price_range w)) →
      AppUpdated.default_quantity_range data = Ok (AppUpdated.quantity_range w) →
      AppUpdated.filtered_data data w = Ok data).
Proof.
  assert (∀ data dr, default_date_range data = Ok (Some dr) →
          ∃ lo hi, dr = [lo; hi]) as Htwo.
  { intros data dr (d & _ & [= H])%bind_Ok.
    destruct (date_min d), (date_max d); simplify_eq/=. eauto. }
  split.
  - intros file data w Hload Hdates Hsc Hsp.
    pose proof (load_data_loaded _ _ Hload) as [Hcols Hcomp Htyped].
    rewrite !Forall_cons in Hcols. destruct Hcols as (Hd & _).
    pose proof Hsc as (? & [Hc _]%getitem_Ok & _)%bind_Ok.
    pose proof Hsp as (? & [Hp _]%getitem_Ok & _)%bind_Ok.
    destruct (Htwo _ _ Hdates) as (lo & hi & Hdr). rewrite Hdr in Hdates.
    rewrite Forall_forall in Htyped.
    unfold App.filtered_data. rewrite date_filter_where, Hdr by done.
    cbn [mbind result_bind]. rewrite category_filter_eq. cbn [where_ columns].
    rewrite !decide_True by done. rewrite where_where. f_equal.
    apply where_all, Forall_forall. intros r Hr. apply andb_True. split.
    + unfold in_selection. apply andb_True.
      split; by eapply options_complete.
    + eapply default_date_range_bounds; eauto.
  - intros file page data w Hload Hwhole Hdates Hsc Hsp Hpr Hqr.
    apply load_data_updated_Ok in Hload as (Hload & _ & Hreq).
    pose proof (load_data_loaded _ _ Hload) as [_ _ Htyped].
    destruct (Htwo _ _ Hdates) as (lo & hi & Hdr). rewrite Hdr in Hdates.
    rewrite Forall_forall in Htyped.
    rewrite filtered_data_updated_where by done. f_equal.
    apply where_all, Forall_forall. intros r Hr.
    unfold passes_updated, selected_or_All. rewrite Hdr, Hsc, Hsp.
    rewrite !decide_True by done. rewrite !andb_True.
    destruct (AppUpdated.price_range w) as [plo phi] eqn:Hp.
    destruct (AppUpdated.quantity_range w) as [qlo qhi] eqn:Hq.
    repeat split.
    + eapply default_date_range_bounds; eauto.
    + eapply default_price_range_bounds; eauto.
    + eapply default_quantity_range_bounds; eauto.
Qed.

Lemma untouched_widgets_show_everything_witness :
  App.load_data (Some example_csv) = Ok example_data ∧
  default_date_range example_data = Ok (Some (App.date_range select_all)) ∧
  App.options example_data "Country" = Ok (App.selected_country select_all) ∧
  App.options example_data "ProductName" = Ok (App.selected_product select_all) ∧
  App.filtered_data example_data select_all = Ok example_data.
Proof.
  assert (default_date_range example_data = Ok (Some (App.date_range select_all)))
    as H1 by by_evaluation.
  assert (App.options example_data "Country" = Ok (App.selected_country select_all))
    as H2 by by_evaluation.
  assert (App.options example_data "ProductName" =
          Ok (App.selected_product select_all)) as H3 by by_evaluation.
  split; [exact example_load|]. do 3 (split; [done|]).
  exact (proj1 untouched_widgets_show_everything _ _ _ example_load H1 H2 H3).
Defined.

(** ** The line chart *)



(** ** The sliders' bounds *)

Lemma int_mono (a b : Qc) z1 z2 :
  (a ≤ b)%Qc → int (Some a) = Ok z1 → int (Some b) = Ok z2 → (z1 ≤ z2)%Z.
Proof.
  unfold int. intros Hle [= <-] [= <-].
  rewrite <-(Z.quot_mul_cancel_r (Qnum a) (Zpos (Qden a)) (Zpos (Qden b)))
    by done.
  rewrite <-(Z.quot_mul_cancel_r (Qnum b) (Zpos (Qden b)) (Zpos (Qden a)))
    by done.
  rewrite (Z.mul_comm (Zpos (Qden b)) (Zpos (Qden a))).
  apply Z.quot_le_mono; [lia|]. exact Hle.
Qed.

(** X16. The bounds that [app_updated.py] computes for its sliders on
    data with at least one row, the prices being of magnitude 2^53 at
    most (which [float] converts without rounding).  For the price slider
    they are the smallest and the largest Price of the data: each is the
    price of a row, and the price of every row lies between them.  For
    the quantity slider they are the smallest and the largest Quantity of
    the data, each cut to a whole number towards zero, the lower one not
    above the upper one. *)
Theorem slider_bounds file page (data : DataFrame) :
  AppUpdated.load_data file = (page, Ok data) → rows data ≠ [] →
  (∀ r p, r ∈ rows data → r !! "Price" = Some (Num p) →
          (Qc_of_Z (- 2 ^ 53) ≤ p)%Qc ∧ (p ≤ Qc_of_Z (2 ^ 53))%Qc) →
  ∃ plo phi qmin qmax qlo qhi,
    AppUpdated.default_price_range data = Ok (Some (plo, phi)) ∧
    (∃ r, r ∈ rows data ∧ r !! "Price" = Some (Num plo)) ∧
    (∃ r, r ∈ rows data ∧ r !! "Price" = Some (Num phi)) ∧
    (∀ r p, r ∈ rows data → r !! "Price" = Some (Num p) →
            (plo ≤ p)%Qc ∧ (p ≤ phi)%Qc) ∧
    AppUpdated.default_quantity_range data = Ok (qlo, qhi) ∧
    (∃ r, r ∈ rows data ∧ r !! "Quantity" = Some (Num qmin)) ∧
    (∃ r, r ∈ rows data ∧ r !! "Quantity" = Some (Num qmax)) ∧
    (∀ r q, r ∈ rows data → r !! "Quantity" = Some (Num q) →
            (qmin ≤ q)%Qc ∧ (q ≤ qmax)%Qc) ∧
    int (Some qmin) = Ok qlo ∧ int (Some qmax) = Ok qhi ∧ (qlo ≤ qhi)%Z.
Proof.
  intros (Hload & _ & _)%load_data_updated_Ok Hrows _.
  destruct (load_data_loaded _ _ Hload) as [Hcols _ Htyped].
  rewrite !Forall_cons in Hcols. destruct Hcols as (_ & Hp & Hq & _).
  unfold AppUpdated.default_price_range, AppUpdated.default_quantity_range.
  rewrite (getitem_in _ "Price"), (getitem_in _ "Quantity") by done.
  cbn [mbind result_bind].
  assert (∀ name, (∀ r, r ∈ rows data → ∃ x, r !! name = Some (Num x)) →
    ∃ lo hi, series_min ((λ r : Row, r !! name) <$> rows data) = Some lo ∧
             series_max ((λ r : Row, r !! name) <$> rows data) = Some hi ∧
             (∃ r, r ∈ rows data ∧ r !! name = Some (Num lo)) ∧
             (∃ r, r ∈ rows data ∧ r !! name = Some (Num hi)) ∧
             (∀ r x, r ∈ rows data → r !! name = Some (Num x) →
                     (lo ≤ x)%Qc ∧ (x ≤ hi)%Qc)) as Hext.
  { intros name Hnum. destruct (rows data) as [|r rs] eqn:Hrs; [done|].
    destruct (Hnum r) as [x Hx]; [left|].
    destruct (series_min ((λ r : Row, r !! name) <$> r :: rs)) as [lo|] eqn:Hmin;
      [|unfold series_min, nums in Hmin; simpl in Hmin; by rewrite Hx in Hmin].
    destruct (series_max ((λ r : Row, r !! name) <$> r :: rs)) as [hi|] eqn:Hmax;
      [|unfold series_max, nums in Hmax; simpl in Hmax; by rewrite Hx in Hmax].
    exists lo, hi. split; [done|]. split; [done|].
    apply series_min_spec in Hmin as [Hlo Hmin].
    apply series_max_spec in Hmax as [Hhi Hmax].
    split; [by apply nums_elem_of in Hlo|].
    split; [by apply nums_elem_of in Hhi|].
    intros r' x' Hr' Hx'. rewrite Forall_forall in Hmin, Hmax.
    pose proof (elem_of_nums _ _ _ _ Hr' Hx') as Hin.
    split; [by apply Hmin|by apply Hmax]. }
  rewrite Forall_forall in Htyped.
  destruct (Hext "Price") as (plo & phi & Hpmin & Hpmax & Hplo & Hphi & Hpall).
  { intros r (t & p & q & _ & ? & _)%Htyped. by exists p. }
  destruct (Hext "Quantity") as (qmin & qmax & Hqmin & Hqmax & Hqlo & Hqhi & Hqall).
  { intros r (t & p & q & _ & _ & ? & _)%Htyped. by exists q. }
  rewrite Hpmin, Hpmax, Hqmin, Hqmax.
  exists plo, phi, qmin, qmax, (Z.quot (Qnum qmin) (Zpos (Qden qmin))),
    (Z.quot (Qnum qmax) (Zpos (Qden qmax))).
  do 4 (split; [done|]). split; [done|]. do 3 (split; [done|]).
  split; [done|]. split; [done|].
  destruct Hqlo as (r & Hr & Hx). apply (int_mono qmin qmax); [|done..].
  by apply (Hqall r qmin).
Qed.

Lemma slider_bounds_witness :
  AppUpdated.load_data (Some example_csv) = ([], Ok example_data) ∧
  rows example_data ≠ [] ∧
  (∀ r p, r ∈ rows example_data → r !! "Price" = Some (Num p) →
          (Qc_of_Z (- 2 ^ 53) ≤ p)%Qc ∧ (p ≤ Qc_of_Z (2 ^ 53))%Qc) ∧
  ∃ plo phi qmin qmax qlo qhi,
    AppUpdated.default_price_range example_data = Ok (Some (plo, phi)) ∧
    (∃ r, r ∈ rows example_data ∧ r !! "Price" = Some (Num plo)) ∧
    (∃ r, r ∈ rows example_data ∧ r !! "Price" = Some (Num phi)) ∧
    (∀ r p, r ∈ rows example_data → r !! "Price" = Some (Num p) →
            (plo ≤ p)%Qc ∧ (p ≤ phi)%Qc) ∧
    AppUpdated.default_quantity_range example_data = Ok (qlo, qhi) ∧
    (∃ r, r ∈ rows example_data ∧ r !! "Quantity" = Some (Num qmin)) ∧
    (∃ r, r ∈ rows example_data ∧ r !! "Quantity" = Some (Num qmax)) ∧
    (∀ r q, r ∈ rows example_data → r !! "Quantity" = Some (Num q) →
            (qmin ≤ q)%Qc ∧ (q ≤ qmax)%Qc) ∧
    int (Some qmin) = Ok qlo ∧ int (Some qmax) = Ok qhi ∧ (qlo ≤ qhi)%Z.
Proof.
  assert (rows example_data ≠ []) as Hrows by done.
  assert (∀ r p, r ∈ rows example_data → r !! "Price" = Some (Num p) →
    (Qc_of_Z (- 2 ^ 53) ≤ p)%Qc ∧ (p ≤ Qc_of_Z (2 ^ 53))%Qc) as Hbound.
  { intros r p Hr Hp. cbn [rows example_data] in Hr.
    apply elem_of_cons in Hr as [->|Hr];
      [|apply elem_of_cons in Hr as [->|Hr]; [|by apply elem_of_nil in Hr]].
    - assert (data_row (mkTs 2023 1 1) 10 2 "US" "Widget" !! "Price" =
              Some (Num (Qc_of_Z 10))) as Hten by by_evaluation.
      rewrite Hten in Hp. injection Hp as <-. split; by_evaluation.
    - assert (data_row (mkTs 2023 2 1) 5 4 "UK" "Gadget" !! "Price" =
              Some (Num (Qc_of_Z 5))) as Hfive by by_evaluation.
      rewrite Hfive in Hp. injection Hp as <-. split; by_evaluation. }
  split; [exact example_load_updated|]. split; [exact Hrows|].
  split; [exact Hbound|].
  exact (slider_bounds _ _ _ example_load_updated Hrows Hbound).
Defined.

(** ** Narrowing a selection, and the order of the filters *)

Lemma sublist_filter_impl {A} (P Q : A → Prop) `{∀ x, Decision (P x)}
    `{∀ x, Decision (Q x)} (l : list A) :
  (∀ x, x ∈ l → P x → Q x) → filter P l `sublist_of` filter Q l.
Proof.
  induction l as [|x l IH]; intros Himpl; [done|].
  assert (filter P l `sublist_of` filter Q l) as Hsub.
  { apply IH. intros y Hy. apply Himpl. by right. }
  rewrite !filter_cons.
  destruct (decide (P x)) as [HP|HP], (decide (Q x)) as [HQ|HQ].
  - by apply sublist_skip.
  - destruct HQ. apply Himpl; [left|done].
  - by apply sublist_cons.
  - done.
Qed.

Lemma filtered_data_where data w :
  Forall (λ c, c ∈ columns data) ["Date"; "Country"; "ProductName"] →
  App.filtered_data data w = Ok (where_ data (passes w)).
Proof.
  rewrite !Forall_cons. intros (Hd & Hc & Hp & _).
  unfold App.filtered_data. rewrite date_filter_where by done.
  cbn [mbind result_bind]. rewrite category_filter_eq. cbn [where_ columns].
  rewrite !decide_True by done. rewrite where_where. f_equal.
  apply where_ext. intros r _. apply andb_comm.
Qed.

Lemma isin_cell_mono sel sel' c : sel ⊆ sel' → isin_cell sel c → isin_cell sel' c.
Proof.
  intros Hsub. rewrite !isin_cell_spec. intros (v & ? & ?). exists v. auto.
Qed.

Lemma range_mono lo hi lo' hi' c :
  (lo' ≤ lo)%Qc → (hi ≤ hi')%Qc →
  ge_num_cell lo c && le_num_cell hi c → ge_num_cell lo' c && le_num_cell hi' c.
Proof.
  intros Hlo Hhi. rewrite !range_spec. intros (x & ? & ? & ?). exists x.
  split; [done|]. split; by eapply Qcle_trans.
Qed.

(** X17. Narrowing a selection only takes rows away.  In [app.py], with
    the date range unchanged, selecting fewer countries and fewer products
    gives a view whose rows are, in order, among the rows of the wider
    view.  In [app_updated.py], with the date range and the select boxes
    unchanged, moving the ends of the sliders inwards does the same. *)
Theorem narrowing_gives_a_subview :
  (∀ file data w w' fd fd',
      App.load_data file = Ok data →
      App.date_range w = App.date_range w' →
      App.selected_country w ⊆ App.selected_country w' →
      App.selected_product w ⊆ App.selected_product w' →
      App.filtered_data data w = Ok fd → App.filtered_data data w' = Ok fd' →
      rows fd `sublist_of` rows fd') ∧
  (∀ file page data w w' fd fd',
      AppUpdated.load_data file = (page, Ok data) →
      AppUpdated.date_range w = AppUpdated.date_range w' →
      AppUpdated.selected_country w = AppUpdated.selected_country w' →
      AppUpdated.selected_product w = AppUpdated.selected_product w' →
      ((AppUpdated.price_range w').1 ≤ (AppUpdated.price_range w).1)%Qc →
      ((AppUpdated.price_range w).2 ≤ (AppUpdated.price_range w').2)%Qc →
      ((AppUpdated.quantity_range w').1 ≤ (AppUpdated.quantity_range w).1)%Z →
      ((AppUpdated.quantity_range w).2 ≤ (AppUpdated.quantity_range w').2)%Z →
      AppUpdated.filtered_data data w = Ok fd →
      AppUpdated.filtered_data data w' = Ok fd' →
      rows fd `sublist_of` rows fd').
Proof.
  assert (∀ a b : Z, (a ≤ b)%Z → (Qc_of_Z a ≤ Qc_of_Z b)%Qc) as Hz.
  { intros a b Hab. unfold Qcle, Qle. simpl. lia. }
  split.
  - intros file data w w' fd fd' Hload Hdr Hsc Hsp Hfd Hfd'.
    assert (filtered_view fd) as Hview by (left; eauto 6).
    pose proof (filtered_view_columns _ Hview) as Hcols.
    destruct (row_filter_view _ _ _ (filtered_data_row_filter w) Hfd) as [Heq _].
    rewrite Heq, !Forall_cons in Hcols.
    rewrite filtered_data_where in Hfd, Hfd' by (repeat constructor; tauto).
    simplify_eq. cbn [where_ rows]. apply sublist_filter_impl. intros r _.
    unfold passes. rewrite Hdr, !andb_True. intros [Hd Hsel].
    split; [done|]. unfold in_selection in *. rewrite andb_True in Hsel.
    apply andb_True. split; eapply isin_cell_mono; try apply Hsel; done.
  - intros file page data w w' fd fd' Hload Hdr Hsc Hsp Hp1 Hp2 Hq1 Hq2 Hfd Hfd'.
    apply load_data_updated_Ok in Hload as (_ & _ & Hreq).
    rewrite filtered_data_updated_where in Hfd, Hfd' by done.
    simplify_eq. cbn [where_ rows]. apply sublist_filter_impl. intros r _.
    unfold passes_updated. rewrite Hdr, Hsc, Hsp, !andb_True.
    intros ((((Hd & Hc) & Hn) & Hprice) & Hqty).
    split; [split; [done|]|].
    + exact (range_mono _ _ _ _ _ Hp1 Hp2 Hprice).
    + exact (range_mono _ _ _ _ _ (Hz _ _ Hq1) (Hz _ _ Hq2) Hqty).
Qed.

Lemma narrowing_gives_a_subview_witness :
  App.load_data (Some example_csv) = Ok example_data ∧
  App.date_range select_US = App.date_range select_all ∧
  App.selected_country select_US ⊆ App.selected_country select_all ∧
  App.selected_product select_US ⊆ App.selected_product select_all ∧
  App.filtered_data example_data select_US =
    Ok (mkDF (columns example_data) [data_row (mkTs 2023 1 1) 10 2 "US" "Widget"]) ∧
  App.filtered_data example_data select_all = Ok example_data ∧
  [data_row (mkTs 2023 1 1) 10 2 "US" "Widget"] `sublist_of` rows example_data.
Proof.
  assert (App.date_range select_US = App.date_range select_all) as H1 by done.
  assert (App.selected_country select_US ⊆ App.selected_country select_all) as H2.
  { intros c Hc. cbn in Hc. apply list_elem_of_singleton in Hc as ->. left. }
  assert (App.selected_product select_US ⊆ App.selected_product select_all) as H3
    by done.
  split; [exact example_load|]. do 3 (split; [done|]).
  split; [exact example_filtered_US|]. split; [exact example_filtered_all|].
  exact (proj1 narrowing_gives_a_subview _ _ _ _ _ _
           example_load H1 H2 H3 example_filtered_US example_filtered_all).
Defined.

(** X18. The filters of a script can be taken in any order.  In [app.py],
    filtering by country and product first and by date afterwards gives
    the filtered view of the script; in [app_updated.py], so does running
    the two sliders' filters before the date and select box filters. *)
Theorem filters_in_any_order :
  (∀ file data w,
      App.load_data file = Ok data →
      "Country" ∈ columns data → "ProductName" ∈ columns data →
      (App.category_filter data (App.selected_country w) (App.selected_product w)
         ≫= λ fd, date_filter fd (App.date_range w)) =
      App.filtered_data data w) ∧
  (∀ file page data w,
      AppUpdated.load_data file = (page, Ok data) →
      (AppUpdated.quantity_filter data (AppUpdated.quantity_range w)
         ≫= λ fd, AppUpdated.price_filter fd (AppUpdated.price_range w)
         ≫= λ fd, AppUpdated.basic_filters fd w) =
      AppUpdated.filtered_data data w).
Proof.
  split.
  - intros file data w Hload Hc Hp.
    destruct (load_data_loaded _ _ Hload) as [Hcols _ _].
    rewrite !Forall_cons in Hcols. destruct Hcols as (Hd & _).
    rewrite filtered_data_where by (by repeat constructor).
    rewrite category_filter_eq, !decide_True by done.
    cbn [mbind result_bind]. rewrite date_filter_where by done.
    by rewrite where_where.
  - intros file page data w (_ & _ & Hreq)%load_data_updated_Ok.
    rewrite filtered_data_updated_where by done.
    unfold AppUpdated.required_columns in Hreq. rewrite !Forall_cons in Hreq.
    destruct Hreq as (Hd & Hp & Hq & Hc & Hn & _).
    rewrite quantity_filter_eq, decide_True by done. cbn [mbind result_bind].
    rewrite price_filter_eq, decide_True by done. cbn [mbind result_bind].
    unfold AppUpdated.basic_filters.
    rewrite date_filter_where by done. cbn [mbind result_bind].
    rewrite selectbox_filter_where by done. cbn [mbind result_bind].
    rewrite selectbox_filter_where by done.
    rewrite !where_where. f_equal. apply where_ext. intros r _.
    unfold passes_updated.
    destruct (match AppUpdated.date_range w with [d0; d1] => in_dates d0 d1 r
              | _ => true end),
      (selected_or_All (AppUpdated.selected_country w) "Country" r),
      (selected_or_All (AppUpdated.selected_product w) "ProductName" r),
      (in_prices (AppUpdated.price_range w) r),
      (in_quantities (AppUpdated.quantity_range w) r); done.
Qed.

Lemma filters_in_any_order_witness :
  App.load_data (Some example_csv) = Ok example_data ∧
  "Country" ∈ columns example_data ∧ "ProductName" ∈ columns example_data ∧
  (App.category_filter example_data (App.selected_country select_US)
                       (App.selected_product select_US)
     ≫= λ fd, date_filter fd (App.date_range select_US)) =
  App.filtered_data example_data select_US.
Proof.
  assert ("Country" ∈ columns example_data) as H1 by by_evaluation.
  assert ("ProductName" ∈ columns example_data) as H2 by by_evaluation.
  split; [exact example_load|]. do 2 (split; [done|]).
  exact (proj1 filters_in_any_order _ _ select_US example_load H1 H2).
Defined.

(** ** The calculator *)




(** ** What the selection widgets offer *)

(** X20. The multiselects of [app.py] offer every value of their column
    once and nothing else.  The select boxes of [app_updated.py] offer
    "All" first and then the same values; so their list has an entry
    twice exactly when the column holds the text "All" itself. *)
Theorem options_each_value_once file (data : DataFrame) (column : string) :
  App.load_data file = Ok data → column ∈ columns data →
  ∃ values,
    App.options data column = Ok values ∧
    AppUpdated.options data column = Ok (Str "All" :: values) ∧
    NoDup values ∧
    (∀ v, v ∈ values ↔ ∃ r, r ∈ rows data ∧ r !! column = Some v) ∧
    (NoDup (Str "All" :: values) ↔
     ¬ ∃ r, r ∈ rows data ∧ r !! column = Some (Str "All")).
Proof.
  intros _ Hcol. unfold App.options, AppUpdated.options.
  rewrite getitem_in by done. cbn [mbind result_bind].
  eexists. split; [done|]. split; [done|].
  assert (∀ v, v ∈ unique (omap id ((λ r : Row, r !! column) <$> rows data)) ↔
               ∃ r, r ∈ rows data ∧ r !! column = Some v) as Helem.
  { intros v. rewrite elem_of_unique, list_elem_of_omap. split.
    - intros (c & (r & -> & Hr)%list_elem_of_fmap & Hv). by exists r.
    - intros (r & Hr & Hv). exists (Some v). split; [|done].
      apply list_elem_of_fmap. by exists r. }
  split; [apply NoDup_unique|]. split; [done|].
  rewrite NoDup_cons, Helem. split; [tauto|].
  intros Hnot. split; [done|]. apply NoDup_unique.
Qed.

Lemma options_each_value_once_witness :
  App.load_data (Some all_csv) = Ok all_data ∧
  "Country" ∈ columns all_data ∧
  ∃ values,
    App.options all_data "Country" = Ok values ∧
    AppUpdated.options all_data "Country" = Ok (Str "All" :: values) ∧
    NoDup values ∧
    (∀ v, v ∈ values ↔ ∃ r, r ∈ rows all_data ∧ r !! "Country" = Some v) ∧
    (NoDup (Str "All" :: values) ↔
     ¬ ∃ r, r ∈ rows all_data ∧ r !! "Country" = Some (Str "All")).
Proof.
  assert (App.load_data (Some all_csv) = Ok all_data) as Hload by by_evaluation.
  assert ("Country" ∈ columns all_data) as Hcol by by_evaluation.
  split; [exact Hload|]. split; [exact Hcol|].
  exact (options_each_value_once _ all_data "Country" Hload Hcol).
Defined.

(** ** Metrics of selections put together *)

Lemma series_sum_cons c s :
  series_sum (c :: s) =
    (match c with Some (Num x) => x | _ => 0%Qc end + series_sum s)%Qc.
Proof.
  unfold series_sum, nums. cbn [omap list_omap].
  destruct c as [[]|]; simpl; ring.
Qed.

Lemma filter_cons_bool {A} (p : A → bool) x l :
  filter (λ y, p y) (x :: l) =
    if p x then x :: filter (λ y, p y) l else filter (λ y, p y) l.
Proof. rewrite filter_cons. by destruct (p x). Qed.

Lemma where_disjoint_union (rs : list Row) (p q pq : Row → bool) :
  (∀ r, r ∈ rs → pq r = p r || q r) → (∀ r, r ∈ rs → p r && q r = false) →
  length (filter (λ r, pq r) rs) =
    length (filter (λ r, p r) rs) + length (filter (λ r, q r) rs) ∧
  series_sum ((λ r : Row, r !! "Sales") <$> filter (λ r, pq r) rs) =
    (series_sum ((λ r : Row, r !! "Sales") <$> filter (λ r, p r) rs) +
     series_sum ((λ r : Row, r !! "Sales") <$> filter (λ r, q r) rs))%Qc.
Proof.
  induction rs as [|r rs IH]; intros Hpq Hdisj.
  { split; [done|]. cbn. ring. }
  destruct IH as [IHlen IHsum];
    [by intros; apply Hpq; right|by intros; apply Hdisj; right|].
  specialize (Hpq r (list_elem_of_here _ _)).
  specialize (Hdisj r (list_elem_of_here _ _)).
  rewrite !filter_cons_bool.
  destruct (p r) eqn:Hp, (q r) eqn:Hq, (pq r) eqn:Hr; try done;
    rewrite ?fmap_cons, ?series_sum_cons, ?IHsum, ?length_cons, ?IHlen;
    (split; [lia|ring]).
Qed.



